(** * AdaptEd backend: schedule allocation, replanning and viva sessions

    A shallow embedding of the curriculum logic of the backend:

    - [backend/agents/scheduler_agent.py]: [_create_calendar_from_modules],
      [_insert_and_shift_calendar], [replan_after_failure];
    - [backend/main.py]: the handlers [start_viva], [interact_viva],
      [viva_chat], [start_simple_viva] and [complete_viva];
    - [backend/viva_database.py] and the records of [backend/models.py].

    Python integers are [Z] (floor division and modulo are [Z.div] and
    [Z.modulo], which agree with [//] and [%] for every sign of the
    operands), dictionaries keyed by strings are [gmap string _], exceptions
    are values of [exn] carried by [result].  Calls to the language model,
    to the speech services and to the clock are fields of an environment
    record, so that every handler is a function that can be evaluated. *)

From stdpp Require Import base option list gmap strings pretty.
From Stdlib Require Import ZArith Lia Ascii.

Local Open Scope string_scope.
Local Open Scope Z_scope.
Local Open Scope list_scope.

(** ** Python preliminaries *)

Module Py.

(** Exceptions raised by the modelled code.  [OracleError] stands for any
    exception escaping a call to an external service, [RuntimeError] for a
    state that Python cannot be in. *)
Inductive exn : Type :=
  | ValueError (msg : string)
  | ZeroDivisionError
  | OracleError (msg : string)
  | RuntimeError (msg : string)
  | HTTPException (status_code : Z) (detail : string).

Inductive result (A : Type) : Type :=
  | Ok (a : A)
  | Raise (e : exn).

Arguments Ok {A} a.
Arguments Raise {A} e.

#[global] Instance result_bind : MBind result := λ A B k r,
  match r with
  | Ok a => k a
  | Raise e => Raise e
  end.

(** [str(e)] for the exceptions above. *)
Definition exn_str (e : exn) : string :=
  match e with
  | ValueError msg => msg
  | ZeroDivisionError => "integer division or modulo by zero"
  | OracleError msg => msg
  | RuntimeError msg => msg
  | HTTPException _ detail => detail
  end.

(** [datetime.date] as its proleptic Gregorian ordinal ([date.toordinal()]):
    ordinal 1 is Monday 0001-01-01.  The range [date.min .. date.max] is not
    modelled: adding days never overflows. *)
Definition date : Type := Z.

(** [d + timedelta(days=n)] *)
Definition add_days (d : date) (n : Z) : date := d + n.

(** [d.weekday()]: Monday is 0 and Sunday is 6. *)
Definition weekday (d : date) : Z := (d + 6) `mod` 7.

(** [xs.index(x)]: position of the first occurrence, [ValueError] if none. *)
Fixpoint index_from (x : string) (xs : list string) (i : Z) : option Z :=
  match xs with
  | [] => None
  | y :: ys => if decide (y = x) then Some i else index_from x ys (i + 1)
  end.

Definition list_index (xs : list string) (x : string) : result Z :=
  match index_from x xs 0 with
  | Some i => Ok i
  | None => Raise (ValueError (x +:+ " is not in list"))
  end.

(** [xs[i]] for a non-negative index inside the list. *)
Definition getitem (xs : list string) (i : Z) : string :=
  default "" (xs !! Z.to_nat i).

End Py.

Export Py.

(** ** backend/models.py: scheduler records *)

Inductive ActivityType : Type :=
  | learning
  | coding_practice
  | viva
  | remedial.

#[global] Instance ActivityType_eq_dec : EqDecision ActivityType.
Proof. solve_decision. Defined.

Record TimeSlot : Type := mkTimeSlot {
  day : string;
  start_time : string;
  duration_minutes : Z;
  activity_type : ActivityType
}.

#[global] Instance TimeSlot_eq_dec : EqDecision TimeSlot.
Proof. solve_decision. Defined.

Inductive ModuleStatusScheduler : Type :=
  | locked
  | unlocked
  | completed
  | failed.

#[global] Instance ModuleStatusScheduler_eq_dec : EqDecision ModuleStatusScheduler.
Proof. solve_decision. Defined.

Record LearningModuleScheduler : Type := mkModule {
  id : string;
  title : string;
  prerequisites : list string;
  estimated_hours : Z;
  status : ModuleStatusScheduler;
  viva_passed : bool
}.

#[global] Instance LearningModuleScheduler_eq_dec : EqDecision LearningModuleScheduler.
Proof. solve_decision. Defined.

Definition days_of_week : list string :=
  ["Monday"; "Tuesday"; "Wednesday"; "Thursday"; "Friday"; "Saturday"; "Sunday"].

(** ** scheduler_agent.py: [_create_calendar_from_modules] *)

Module Allocator.





(** *** The allocation as the specification words it

    [ceil_div a b] is the ceiling of the quotient [a / b]; [allocate]
    follows the six numbered steps of the allocator's description. *)

Definition ceil_div (a b : Z) : Z := - ((- a) `div` b).

Definition day_label (d : date) : string := getitem days_of_week (weekday d).

Definition study_slot (cursor : date) (total_minutes daily_minutes days_needed i : Z)
    : TimeSlot :=
  mkTimeSlot (day_label (cursor + i)) "18:00"
    (if decide (i = days_needed - 1)
     then total_minutes - (days_needed - 1) * daily_minutes
     else daily_minutes)
    learning.

Definition study_slots (cursor : date) (total_minutes daily_minutes days_needed : Z)
    : list TimeSlot :=
  study_slot cursor total_minutes daily_minutes days_needed <$> seqZ 0 days_needed.

Fixpoint allocate (modules : list LearningModuleScheduler) (daily_hours : Z)
    (cursor : date) : list TimeSlot :=
  match modules with
  | [] => []
  | m :: rest =>
      if decide (status m = completed) then allocate rest daily_hours cursor
      else
        let total_minutes := estimated_hours m * 60 in
        let daily_minutes := daily_hours * 60 in
        let days_needed := ceil_div total_minutes daily_minutes in
        let last_study_day := cursor + (days_needed - 1) in
        let practice_day := last_study_day + 1 in
        let assessment_day := practice_day + 1 in
        study_slots cursor total_minutes daily_minutes days_needed
          ++ [mkTimeSlot (day_label practice_day) "18:00" 60 coding_practice]
          ++ [mkTimeSlot (day_label assessment_day) "18:00" 30 viva]
          ++ allocate rest daily_hours (assessment_day + 1)
  end.

End Allocator.

(** ** scheduler_agent.py: [_insert_and_shift_calendar], [replan_after_failure]

    The replanner assigns to fields of objects it was handed and builds new
    [TimeSlot] objects, so slots live in a store here: an address is an
    index into the list of allocated slots, and a calendar is a list of
    addresses. *)

Module Replanner.

Definition store : Type := list TimeSlot.
Definition ref : Type := nat.

(** [TimeSlot(day=..., start_time=..., ...)]: a new object at the next free
    address. *)
Definition new_TimeSlot (h : store) (s : TimeSlot) : store * ref :=
  (h ++ [s], length h).

(** Reading a field of the object at [r].  Python has no dangling
    reference; an address outside the store stops the model. *)
Definition deref (h : store) (r : ref) : result TimeSlot :=
  match h !! r with
  | Some s => Ok s
  | None => Raise (RuntimeError "unallocated slot")
  end.

Record UserSchedule : Type := mkSchedule {
  user_id : string;
  goal : string;
  start_date : date;
  daily_commitment_hours : Z;
  preferred_language : string;
  modules : list LearningModuleScheduler;
  calendar : list ref
}.

Definition set_modules (s : UserSchedule) (ms : list LearningModuleScheduler) : UserSchedule :=
  mkSchedule (user_id s) (goal s) (start_date s) (daily_commitment_hours s)
             (preferred_language s) ms (calendar s).

Definition set_calendar (s : UserSchedule) (c : list ref) : UserSchedule :=
  mkSchedule (user_id s) (goal s) (start_date s) (daily_commitment_hours s)
             (preferred_language s) (modules s) c.

(** Body of [for slot in calendar] on the loop state
    [(store, updated_calendar)]. *)
Definition shift_step (shift_days : Z) (st : store * list ref) (slot : ref)
    : result (store * list ref) :=
  let '(h, updated_calendar) := st in
  s ← deref h slot;
  current_day_index ← list_index days_of_week (day s);
  let new_day_index := (current_day_index + shift_days) `mod` 7 in
  let new_day := getitem days_of_week new_day_index in
  let '(h, shifted_slot) :=
    new_TimeSlot h (mkTimeSlot new_day (start_time s) (duration_minutes s) (activity_type s)) in
  Ok (h, updated_calendar ++ [shifted_slot]).

Fixpoint shift_loop (shift_days : Z) (st : store * list ref) (calendar : list ref)
    : result (store * list ref) :=
  match calendar with
  | [] => Ok st
  | slot :: rest =>
      st' ← shift_step shift_days st slot;
      shift_loop shift_days st' rest
  end.

Definition _insert_and_shift_calendar (h : store) (calendar : list ref)
    (new_slot : ref) (shift_days : Z) : result (store * list ref) :=
  let updated_calendar := [new_slot] in
  shift_loop shift_days (h, updated_calendar) calendar.

(** The search loop of step 1: the first module with the given id is
    assigned [status = failed] and [viva_passed = False], and the loop
    breaks.  Returns the module found and the list after the assignment. *)
Definition fail_module (m : LearningModuleScheduler) : LearningModuleScheduler :=
  mkModule (id m) (title m) (prerequisites m) (estimated_hours m) failed false.

Fixpoint find_and_fail (ms : list LearningModuleScheduler) (failed_module_id : string)
    : option (LearningModuleScheduler * list LearningModuleScheduler) :=
  match ms with
  | [] => None
  | module :: rest =>
      if decide (id module = failed_module_id)
      then Some (fail_module module, fail_module module :: rest)
      else '(found, rest') ← find_and_fail rest failed_module_id;
           Some (found, module :: rest')
  end.

(** What the replanner asks of its surroundings: the language model behind
    [_generate_remedial_focus] and [date.today()]. *)
Record Env : Type := mkEnv {
  _generate_remedial_focus : LearningModuleScheduler → result string;
  today : date
}.

(** The state after the call, whether it returned or raised: the schedule
    object is updated in place, so an exception leaves the assignments made
    before it. *)
Record Outcome : Type := mkOutcome {
  raised : option exn;
  store_after : store;
  schedule_after : UserSchedule
}.

Definition replan_after_failure (env : Env) (h : store) (current_schedule : UserSchedule)
    (failed_module_id : string) : Outcome :=
  match find_and_fail (modules current_schedule) failed_module_id with
  | None =>
      mkOutcome
        (Some (ValueError ("Module " +:+ failed_module_id +:+ " not found in schedule")))
        h current_schedule
  | Some (failed_module, ms) =>
      let current_schedule := set_modules current_schedule ms in
      match _generate_remedial_focus env failed_module with
      | Raise e => mkOutcome (Some e) h current_schedule
      | Ok remedial_focus =>
          let tomorrow := add_days (today env) 1 in
          let tomorrow_day := getitem days_of_week (weekday tomorrow) in
          let '(h, remedial_slot) :=
            new_TimeSlot h (mkTimeSlot tomorrow_day "18:00" 120 remedial) in
          match _insert_and_shift_calendar h (calendar current_schedule) remedial_slot 1 with
          | Raise e => mkOutcome (Some e) h current_schedule
          | Ok (h, updated_calendar) =>
              mkOutcome None h (set_calendar current_schedule updated_calendar)
          end
      end
  end.

End Replanner.

(** ** String helpers used by the handlers of main.py *)

Module PyStr.

Definition newline : string := String "010"%char "".

(** ASCII characters for which [str.isspace] holds; [str.strip()] also
    removes the non-ASCII white space of Unicode, which the byte strings of
    this model do not decode. *)
Definition is_space (a : ascii) : bool :=
  let n := nat_of_ascii a in
  bool_decide (n = 32 ∨ (9 ≤ n ∧ n ≤ 13) ∨ (28 ≤ n ∧ n ≤ 31))%nat.

Fixpoint lstrip (s : string) : string :=
  match s with
  | String a s' => if is_space a then lstrip s' else s
  | EmptyString => EmptyString
  end.

Fixpoint rstrip (s : string) : string :=
  match s with
  | String a s' =>
      match rstrip s' with
      | EmptyString => if is_space a then EmptyString else String a EmptyString
      | r => String a r
      end
  | EmptyString => EmptyString
  end.

Definition strip (s : string) : string := rstrip (lstrip s).

(** [s.split(c, 1)] for a one-character separator: the text before the
    first [c] and, when there is one, the text after it. *)
Fixpoint split_once (c : ascii) (s : string) : string * option string :=
  match s with
  | EmptyString => (EmptyString, None)
  | String a s' =>
      if decide (a = c) then (EmptyString, Some s')
      else let '(before, after) := split_once c s' in (String a before, after)
  end.

(** [str(n)] for an integer. *)
Definition str_int (n : Z) : string := pretty n.

End PyStr.

(** ** main.py and viva_database.py: the spoken viva ([/viva/start],
    [/viva/interact]) *)

Module Viva.

Record VivaMessage : Type := mkMessage {
  role : string;
  content : string;
  timestamp : string
}.

(** The session dictionary built by [start_viva] and stored under
    ["sessions"] in viva_sessions.json. *)
Record SessionData : Type := mkSession {
  session_id : string;
  module_id : string;
  module_title : string;
  transcript : list VivaMessage;
  current_score : Z;
  status : string;
  question_count : Z;
  created_at : string;
  updated_at : string
}.

Abbreviation sessions := (gmap string SessionData).

(** viva_database.py *)
Definition create_session (db : sessions) (session_data : SessionData) : sessions :=
  <[session_id session_data := session_data]> db.

Definition get_session (db : sessions) (sid : string) : option SessionData :=
  db !! sid.

Definition update_session (db : sessions) (sid : string) (session_data : SessionData)
    (now : string) : result sessions :=
  match db !! sid with
  | None => Raise (ValueError ("Session " +:+ sid +:+ " not found"))
  | Some _ =>
      let session_data :=
        mkSession (session_id session_data) (module_id session_data)
          (module_title session_data) (transcript session_data)
          (current_score session_data) (status session_data)
          (question_count session_data) (created_at session_data) now in
      Ok (<[sid := session_data]> db)
  end.

(** The services a request depends on.  main.py calls [VivaAgent()] and the
    agent's methods without importing the class (the class of that name is
    in agents/viva_agent_gemini.py), so the agent is taken as given:
    [VivaAgent_init] is the outcome of constructing it, an exception there
    covering an unbound name as well, and its methods are the next fields.
    [utcnow k] is the [k]-th reading of the clock during the request. *)
Record Env : Type := mkEnv {
  GEMINI_API_KEY : bool;
  GROQ_API_KEY : bool;
  VivaAgent_init : result unit;
  uuid4 : string;
  generate_initial_question : string → option string → option string → result string;
  transcribe_audio : string → result string;
  generate_viva_response : list VivaMessage → string → string → result (string * Z);
  generate_final_feedback : Z → bool → string → list VivaMessage → result string;
  utcnow : nat → string
}.

Record VivaStartRequest : Type := mkStartRequest {
  req_module_id : string;
  req_module_title : string;
  req_module_description : option string;
  req_user_goal : option string
}.

(** The [audio_base64] field of the responses is left out: text-to-speech
    runs after the session is stored and its failure is swallowed. *)
Record VivaStartResponse : Type := mkStartResponse {
  start_session_id : string;
  greeting : string;
  first_question : string
}.

Definition check_api_keys (env : Env) : result unit :=
  if negb (GEMINI_API_KEY env)
  then Raise (HTTPException 503 "Viva Engine is not configured. GEMINI_API_KEY is missing.")
  else if negb (GROQ_API_KEY env)
  then Raise (HTTPException 503 "Viva Engine is not configured. GROQ_API_KEY is missing.")
  else Ok ().

(** [str(e)] as the handlers interpolate it. *)
Definition str_exn (e : exn) : string :=
  match e with
  | HTTPException code detail => PyStr.str_int code +:+ ": " +:+ detail
  | _ => exn_str e
  end.

(** The [try] block of [start_viva]. *)
Definition start_viva_try (env : Env) (db : sessions) (request : VivaStartRequest)
    : result (VivaStartResponse * sessions) :=
  _ ← check_api_keys env;
  _ ← VivaAgent_init env;
  let session_id := uuid4 env in
  greeting_and_question ←
    generate_initial_question env (req_module_title request)
      (req_module_description request) (req_user_goal request);
  let '(greeting, first_question) :=
    match PyStr.split_once "?"%char greeting_and_question with
    | (before, Some after) => (before +:+ "?", PyStr.strip after)
    | (_, None) =>
        ("Hey! Let's chat about " +:+ req_module_title request +:+ ".",
         greeting_and_question)
    end in
  let now := utcnow env 0 in
  let session_data :=
    mkSession session_id (req_module_id request) (req_module_title request)
      [mkMessage "interviewer" greeting_and_question now]
      50 "active" 1 now now in
  let db := create_session db session_data in
  Ok (mkStartResponse session_id greeting first_question, db).

(** [start_viva]: its only handler is [except Exception], so every failure,
    the 503 of a missing key included, leaves as a 500.  The stored sessions
    change only when the call succeeds. *)
Definition start_viva (env : Env) (db : sessions) (request : VivaStartRequest)
    : result VivaStartResponse * sessions :=
  match start_viva_try env db request with
  | Ok (response, db') => (Ok response, db')
  | Raise e => (Raise (HTTPException 500 ("Failed to start viva: " +:+ str_exn e)), db)
  end.

Record FinalResult : Type := mkFinalResult {
  passed : bool;
  final_score : Z;
  feedback : string
}.

Record VivaInteractResponse : Type := mkInteractResponse {
  reply_text : string;
  resp_status : string;
  resp_current_score : Z;
  resp_question_count : Z;
  final_result : option FinalResult
}.

(** Step 1 of [interact_viva]: the learner's words, from the recording or
    from the text field. *)
Definition resolve_user_input (env : Env) (user_audio : option string)
    (user_text : option string) : result string :=
  match user_audio with
  | Some file =>
      match transcribe_audio env file with
      | Ok user_input => Ok user_input
      | Raise e => Raise (HTTPException 400 ("Failed to transcribe audio: " +:+ str_exn e))
      end
  | None =>
      match user_text with
      | Some (String a s) => Ok (String a s)
      | _ => Raise (HTTPException 400 "Either user_audio or user_text must be provided")
      end
  end.

Definition append_message (s : SessionData) (m : VivaMessage) : SessionData :=
  mkSession (session_id s) (module_id s) (module_title s) (transcript s ++ [m])
    (current_score s) (status s) (question_count s) (created_at s) (updated_at s).

Definition set_current_score (s : SessionData) (v : Z) : SessionData :=
  mkSession (session_id s) (module_id s) (module_title s) (transcript s)
    v (status s) (question_count s) (created_at s) (updated_at s).

Definition set_status (s : SessionData) (v : string) : SessionData :=
  mkSession (session_id s) (module_id s) (module_title s) (transcript s)
    (current_score s) v (question_count s) (created_at s) (updated_at s).

Definition set_question_count (s : SessionData) (v : Z) : SessionData :=
  mkSession (session_id s) (module_id s) (module_title s) (transcript s)
    (current_score s) (status s) v (created_at s) (updated_at s).

(** Step 3: the score update and its clamp. *)
Definition update_score (s : SessionData) (score_update : Z) : SessionData :=
  let s := set_current_score s (current_score s + score_update) in
  set_current_score s (Z.max 0 (Z.min 100 (current_score s))).

(** Step 4: the conclusion check, on the session after the counter was
    incremented. *)
Definition conclude (env : Env) (s : SessionData) (response_text : string)
    : result (SessionData * string * option FinalResult) :=
  if decide (5 ≤ question_count s) then
    let passed := bool_decide (70 ≤ current_score s) in
    let s := set_status s (if passed then "passed" else "failed") in
    final_feedback ←
      generate_final_feedback env (current_score s) passed (module_title s) (transcript s);
    let s := append_message s (mkMessage "interviewer" final_feedback (utcnow env 2)) in
    let response_text := response_text +:+ PyStr.newline +:+ PyStr.newline +:+ final_feedback in
    Ok (s, response_text, Some (mkFinalResult passed (current_score s) final_feedback))
  else Ok (s, response_text, None).

(** The [try] block of [interact_viva].  [get_session] reads a copy of the
    stored dictionary, so nothing is stored before [update_session]. *)
Definition interact_viva_try (env : Env) (db : sessions) (sid : string)
    (user_audio : option string) (user_text : option string)
    : result (VivaInteractResponse * sessions) :=
  _ ← check_api_keys env;
  match get_session db sid with
  | None => Raise (HTTPException 404 "Session not found")
  | Some session_data =>
      if decide (status session_data ≠ "active")
      then Raise (HTTPException 400 ("Session is already " +:+ status session_data))
      else
        _ ← VivaAgent_init env;
        user_input ← resolve_user_input env user_audio user_text;
        let session_data :=
          append_message session_data (mkMessage "user" user_input (utcnow env 0)) in
        let module_context := "Module: " +:+ module_title session_data in
        '(response_text, score_update) ←
          generate_viva_response env (transcript session_data) user_input module_context;
        let session_data := update_score session_data score_update in
        let session_data :=
          append_message session_data (mkMessage "interviewer" response_text (utcnow env 1)) in
        let session_data :=
          set_question_count session_data (question_count session_data + 1) in
        '(session_data, response_text, final_result) ←
          conclude env session_data response_text;
        db ← update_session db sid session_data (utcnow env 3);
        Ok (mkInteractResponse response_text (status session_data)
              (current_score session_data) (question_count session_data) final_result,
            db)
  end.

(** [interact_viva]: an [HTTPException] is re-raised as it is, any other
    exception becomes a 500. *)
Definition interact_viva (env : Env) (db : sessions) (sid : string)
    (user_audio : option string) (user_text : option string)
    : result VivaInteractResponse * sessions :=
  match interact_viva_try env db sid user_audio user_text with
  | Ok (response, db') => (Ok response, db')
  | Raise (HTTPException code detail) => (Raise (HTTPException code detail), db)
  | Raise e =>
      (Raise (HTTPException 500 ("Failed to process viva interaction: " +:+ str_exn e)), db)
  end.

End Viva.

(** ** main.py: the text viva ([/viva/chat], [/viva/start-simple]) *)

Module Chat.

Record ChatMessage : Type := mkChatMessage {
  role : string;
  content : string
}.

(** A value of the module-level dictionary [viva_sessions]. *)
Record ChatSession : Type := mkChatSession {
  history : list ChatMessage;
  scores : list Z;
  question_count : Z
}.

Abbreviation viva_sessions := (gmap string ChatSession).

Record VivaInteraction : Type := mkInteraction {
  session_id : string;
  user_text : string;
  module_topic : string;
  target_role : string
}.

Record VivaResponse : Type := mkResponse {
  reply : string;
  next_question : string;
  score : Z;
  cumulative_score : Z;
  resp_question_count : Z;
  is_complete : bool;
  final_feedback : option string
}.

(** agents/viva_agent.py, as far as it calls the language model. *)
Record Env : Type := mkEnv {
  get_interviewer_response : list ChatMessage → string → string → string → result (string * Z);
  generate_initial_question : string → option string → result string;
  generate_final_feedback : Z → string → result string;
  uuid4 : string
}.

(** [sum(xs)] *)
Definition sum (xs : list Z) : Z := foldl Z.add 0 xs.

(** [int(sum(xs) / len(xs))]: the quotient rounded towards zero.  Python
    divides in floating point here, which yields the same integer as long
    as the sum stays below 2^53. *)
Definition int_mean (xs : list Z) : Z := Z.quot (sum xs) (Z.of_nat (length xs)).

(** Splitting the interviewer's text into a reply and the next question. *)
Definition split_response (response_text : string) : string * string :=
  match PyStr.split_once "?"%char response_text with
  | (before, Some after) =>
      let next_question := PyStr.strip after in
      (PyStr.strip before +:+ "?",
       if decide (next_question = "") then "Continue." else next_question)
  | (_, None) =>
      match PyStr.split_once "."%char response_text with
      | (before, Some after) => (PyStr.strip before +:+ ".", PyStr.strip after)
      | (_, None) => (response_text, "")
      end
  end.

Definition append_history (s : ChatSession) (m : ChatMessage) : ChatSession :=
  mkChatSession (history s ++ [m]) (scores s) (question_count s).

(** [if score_update >= 0: scores.append(score); question_count += 1] *)
Definition record_score (s : ChatSession) (score_update score : Z) : ChatSession :=
  if decide (0 ≤ score_update)
  then mkChatSession (history s) (scores s ++ [score]) (question_count s + 1)
  else s.

Definition http_500 (e : exn) : exn :=
  HTTPException 500 ("Failed to process viva interaction: " +:+ Viva.str_exn e).

(** [viva_chat].  The session is an entry of a dictionary kept in memory and
    is updated in place, so the assignments made before an exception stay. *)
Definition viva_chat (env : Env) (sessions : viva_sessions) (interaction : VivaInteraction)
    : result VivaResponse * viva_sessions :=
  let sid := session_id interaction in
  let session := default (mkChatSession [] [] 0) (sessions !! sid) in
  let session := append_history session (mkChatMessage "user" (user_text interaction)) in
  let sessions := <[sid := session]> sessions in
  match get_interviewer_response env (history session) (user_text interaction)
          (module_topic interaction) (target_role interaction) with
  | Raise e => (Raise (http_500 e), sessions)
  | Ok (response_text, score_update) =>
      let '(reply, next_question) := split_response response_text in
      let score := if decide (0 ≤ score_update) then score_update else 0 in
      let full_response := PyStr.strip (reply +:+ " " +:+ next_question) in
      let session := append_history session (mkChatMessage "assistant" full_response) in
      let session := record_score session score_update score in
      let sessions := <[sid := session]> sessions in
      let cumulative_score :=
        if decide (0 < length (scores session))%nat then int_mean (scores session) else 0 in
      let is_complete := bool_decide (5 ≤ question_count session) in
      if is_complete then
        match generate_final_feedback env cumulative_score (module_topic interaction) with
        | Raise e => (Raise (http_500 e), sessions)
        | Ok final_feedback =>
            (Ok (mkResponse reply next_question score cumulative_score
                   (question_count session) is_complete (Some final_feedback)),
             sessions)
        end
      else
        (Ok (mkResponse reply next_question score cumulative_score
               (question_count session) is_complete None),
         sessions)
  end.

(** [start_simple_viva]: returns the session id and the first question. *)
Definition start_simple_viva (env : Env) (sessions : viva_sessions)
    (module_topic : string) (user_goal : option string)
    : result (string * string) * viva_sessions :=
  let session_id := uuid4 env in
  match generate_initial_question env module_topic user_goal with
  | Raise e =>
      (Raise (HTTPException 500 ("Failed to start viva: " +:+ Viva.str_exn e)), sessions)
  | Ok first_question =>
      (Ok (session_id, first_question),
       <[session_id := mkChatSession [mkChatMessage "interviewer" first_question] [] 0]>
         sessions)
  end.

End Chat.

(** ** main.py: [complete_viva], the unlock step after a viva *)

Module Complete.

(** A module of the stored roadmap (a dictionary made from
    [LearningModule]); [status] holds the text of a [ModuleStatus]. *)
Record LearningModule : Type := mkLearningModule {
  title : string;
  description : string;
  week : Z;
  status : string;
  resources : list string;
  viva_score : option Z
}.

Record Roadmap : Type := mkRoadmap {
  roadmap_user_id : string;
  modules : list LearningModule
}.

(** The stored user document, as far as the handler reads it. *)
Record UserData : Type := mkUserData {
  roadmap : option Roadmap
}.

Abbreviation users := (gmap string UserData).

Record VivaCompleteRequest : Type := mkRequest {
  user_id : string;
  module_id : string;
  final_score : Z
}.

(** The [message] field is a text built from the other three and is left
    out. *)
Record VivaCompleteResponse : Type := mkResponse {
  success : bool;
  passed : bool;
  unlocked_module_id : option string
}.

Definition set_viva_score (m : LearningModule) (v : Z) : LearningModule :=
  mkLearningModule (title m) (description m) (week m) (status m) (resources m) (Some v).

Definition set_status (m : LearningModule) (v : string) : LearningModule :=
  mkLearningModule (title m) (description m) (week m) v (resources m) (viva_score m).

(** [for i, module in enumerate(modules)]: index of the first module whose
    title is the requested one. *)
Fixpoint find_index (ms : list LearningModule) (module_id : string) (i : nat) : option nat :=
  match ms with
  | [] => None
  | module :: rest =>
      if decide (title module = module_id) then Some i
      else find_index rest module_id (S i)
  end.

(** [modules[i][key] = ...] on an index inside the list. *)
Definition update_at (i : nat) (f : LearningModule → LearningModule)
    (ms : list LearningModule) : list LearningModule :=
  alter f i ms.

(** The updates of lines 1021-1045 on the module list, for the module found
    at [current_module_index]; returns the list and [unlocked_module_id]. *)
Definition apply_result (modules : list LearningModule) (current_module_index : nat)
    (final_score : Z) : list LearningModule * option string :=
  let passed := bool_decide (70 ≤ final_score) in
  let modules := update_at current_module_index (λ m, set_viva_score m final_score) modules in
  if passed then
    let modules := update_at current_module_index (λ m, set_status m "completed") modules in
    if decide (current_module_index + 1 < length modules)%nat then
      let modules :=
        update_at (current_module_index + 1) (λ m, set_status m "active") modules in
      (modules, title <$> modules !! (current_module_index + 1)%nat)
    else (modules, None)
  else
    (update_at current_module_index (λ m, set_status m "pending") modules, None).

Definition update_user_roadmap (db : users) (uid : string) (r : Roadmap) : users :=
  <[uid := mkUserData (Some r)]> db.

Definition complete_viva (db : users) (request : VivaCompleteRequest)
    : result VivaCompleteResponse * users :=
  match db !! user_id request with
  | None =>
      (Raise (HTTPException 404 ("User " +:+ user_id request +:+ " not found")), db)
  | Some user_data =>
      match roadmap user_data with
      | None =>
          (Raise (HTTPException 404 ("No roadmap found for user " +:+ user_id request)), db)
      | Some roadmap =>
          match modules roadmap with
          | [] => (Raise (HTTPException 404 "No modules found in roadmap"), db)
          | modules =>
              match find_index modules (module_id request) 0 with
              | None =>
                  (Raise (HTTPException 404
                            ("Module '" +:+ module_id request +:+ "' not found in roadmap")),
                   db)
              | Some current_module_index =>
                  let passed := bool_decide (70 ≤ final_score request) in
                  let '(modules, unlocked_module_id) :=
                    apply_result modules current_module_index (final_score request) in
                  let roadmap := mkRoadmap (roadmap_user_id roadmap) modules in
                  (Ok (mkResponse true passed unlocked_module_id),
                   update_user_roadmap db (user_id request) roadmap)
              end
          end
      end
  end.


End Complete.

(** ** Definitions used by the statements *)

Module Spec.


(** A weekday label moved forward by [shift_days], modulo 7. *)
Definition advance_label (shift_days : Z) (label : string) : string :=
  match index_from label days_of_week 0 with
  | Some i => getitem days_of_week ((i + shift_days) `mod` 7)
  | None => label
  end.

(** The shifted copy of a slot: only the day label differs. *)
Definition shift_slot (shift_days : Z) (s : TimeSlot) : TimeSlot :=
  mkTimeSlot (advance_label shift_days (day s)) (start_time s) (duration_minutes s)
             (activity_type s).

(** The remedial slot built by [replan_after_failure]. *)
Definition remedial_slot (today : date) : TimeSlot :=
  mkTimeSlot (getitem days_of_week (weekday (add_days today 1))) "18:00" 120 remedial.

(** [calendar] refers to the allocated slots [slots], each labelled with a
    weekday. *)
Definition calendar_slots (h : Replanner.store) (calendar : list Replanner.ref)
    (slots : list TimeSlot) : Prop :=
  Forall2 (λ r s, h !! r = Some s ∧ day s ∈ days_of_week) calendar slots.

(** Contents of viva_sessions.json after any sequence of calls to
    [start_viva] and [interact_viva], from an empty file. *)
Inductive viva_reachable : gmap string Viva.SessionData → Prop :=
  | viva_reachable_empty : viva_reachable ∅
  | viva_reachable_start (env : Viva.Env) (db : gmap string Viva.SessionData)
      (request : Viva.VivaStartRequest) :
      viva_reachable db →
      viva_reachable (snd (Viva.start_viva env db request))
  | viva_reachable_interact (env : Viva.Env) (db : gmap string Viva.SessionData)
      (sid : string) (user_audio user_text : option string) :
      viva_reachable db →
      viva_reachable (snd (Viva.interact_viva env db sid user_audio user_text)).


(** [clamp(x, 0, 100)] *)
Definition clamp_score (x : Z) : Z := Z.max 0 (Z.min 100 x).

(** The status a session has after a turn that brought the counter to
    [question_count] and the score to [current_score]. *)
Definition status_after (question_count current_score : Z) : string :=
  if decide (5 ≤ question_count)
  then (if bool_decide (70 ≤ current_score) then "passed" else "failed")
  else "active".

(** What holds of every stored session of the spoken viva: the score is
    within bounds, the counter is between 1 and 5, and the status is the one
    the conclusion check gives for that counter and score. *)
Definition session_ok (s : Viva.SessionData) : Prop :=
  0 ≤ Viva.current_score s ≤ 100
  ∧ 1 ≤ Viva.question_count s ≤ 5
  ∧ Viva.status s = status_after (Viva.question_count s) (Viva.current_score s).


(** The session a [/viva/chat] request works on: the stored one, or a new
    empty one. *)
Definition current_session (sessions : gmap string Chat.ChatSession) (sid : string)
    : Chat.ChatSession :=
  default (Chat.mkChatSession [] [] 0) (sessions !! sid).


End Spec.

(** ** Concrete schedules, roadmaps and sessions *)

Module Examples.

(** Three modules of 10, 6 and 4 hours, as in the scenario of the
    specification. *)
Definition scenario_modules : list LearningModuleScheduler :=
  [ mkModule "M1" "M1" [] 10 unlocked false;
    mkModule "M2" "M2" ["M1"] 6 locked false;
    mkModule "M3" "M3" ["M2"] 4 locked false ].

(** A schedule whose calendar holds a Sunday assessment and a Monday study
    slot, with a language model that answers. *)
Definition sample_store : Replanner.store :=
  [ mkTimeSlot "Sunday" "18:00" 30 viva; mkTimeSlot "Monday" "18:00" 120 learning ].

Definition sample_schedule : Replanner.UserSchedule :=
  Replanner.mkSchedule "u1" "MLOps" 1 2 "Python" scenario_modules [0%nat; 1%nat].

Definition sample_replan_env : Replanner.Env :=
  Replanner.mkEnv (λ _, Ok "Review the basics.") 3.





(** Services that answer, the language model returning [score_update]. *)
Definition viva_env (score_update : Z) : Viva.Env :=
  Viva.mkEnv true true (Ok ()) "s1"
    (λ module_title _ _, Ok ("Hi! Ready? What is " +:+ module_title +:+ " for"))
    (λ file, Ok file)
    (λ _ _ _, Ok ("I see. What else", score_update))
    (λ _ _ _ _, Ok "That is all.")
    (λ _, "2026-01-01T00:00:00").

Definition start_request : Viva.VivaStartRequest :=
  Viva.mkStartRequest "module_1" "Git Basics" None None.

(** The stored sessions after one call to [start_viva]. *)
Definition started : gmap string Viva.SessionData :=
  snd (Viva.start_viva (viva_env 0) ∅ start_request).



Definition chat_env (score_update : Z) : Chat.Env :=
  Chat.mkEnv (λ _ _ _ _, Ok ("Correct. What is a branch?", score_update))
    (λ module_topic _, Ok ("What is " +:+ module_topic +:+ "?"))
    (λ _ _, Ok "Well done.")
    "c1".

Definition chat_turn (text : string) : Chat.VivaInteraction :=
  Chat.mkInteraction "c1" text "Git Basics" "Senior Technical Interviewer".

(** The stored sessions after [start_viva] and three answers, each worth
    seven points. *)
Definition after_three : gmap string Viva.SessionData :=
  let turn db := snd (Viva.interact_viva (viva_env 7) db "s1" None (Some "It tracks changes")) in
  turn (turn (turn (snd (Viva.start_viva (viva_env 7) ∅ start_request)))).

(** The dictionary after [start_simple_viva] and answers graded 80 and 75,
    with a "continue" in between. *)
Definition two_graded : gmap string Chat.ChatSession :=
  let started := snd (Chat.start_simple_viva (chat_env 0) ∅ "Git Basics" None) in
  let one := snd (Chat.viva_chat (chat_env 80) started
                    (chat_turn "It records snapshots")) in
  let skip := snd (Chat.viva_chat (chat_env (-1)) one
                     (chat_turn "continue")) in
  snd (Chat.viva_chat (chat_env 75) skip
         (chat_turn "A pointer to a commit")).

End Examples.

(** ** scheduler_agent.py: [generate_initial_roadmap] *)

Module Planner.
Import Replanner.

(** What [generate_initial_roadmap] asks of its surroundings: the language
    model behind [_generate_module_breakdown], [uuid.uuid4()] and
    [date.today()]. *)
Record Env : Type := mkEnv {
  _generate_module_breakdown :
    string → list string → Z → string → result (list LearningModuleScheduler);
  uuid4 : string;
  today : date
}.



End Planner.

Module PlannerSpec.






End PlannerSpec.

Module PlannerExamples.
Import Replanner.




End PlannerExamples.

(** ** main.py: [get_viva_session] *)

Module VivaStore.
Import Viva.

(** [get_viva_session]: the stored session, or the 404 of an unknown id. *)
Definition get_viva_session (db : sessions) (sid : string) : result SessionData :=
  match get_session db sid with
  | Some session_data => Ok session_data
  | None => Raise (HTTPException 404 "Session not found")
  end.

End VivaStore.

(** ** agents/viva_agent_gemini.py: what the agent makes of the model's reply *)

Module GeminiAgent.

(** What came back from [generate_content] and [json.loads] in
    [generate_viva_response]: an exception anywhere in the outer [try]
    (the call itself, [response.text], a JSON value that is no object, or
    [int(...)] on a value that is no number), text that is no JSON, or an
    object with its two optional keys, the text a string when it is there
    and the score already read as an integer. *)
Inductive Reply : Type :=
  | GenerationFailed
  | NotJSON
  | Parsed (response_text : option string) (score_update : option Z).

Definition generate_viva_response (r : Reply) : string * Z :=
  match r with
  | Parsed response_text score_update =>
      let score_update := default 0 score_update in
      let score_update := Z.max (-10) (Z.min 10 score_update) in
      (default "" response_text, score_update)
  | NotJSON =>
      ("I see. Let me ask you another question to better assess your understanding.", 0)
  | GenerationFailed =>
      ("Thank you for your answer. Let's continue with the next question.", 0)
  end.

(** [generate_initial_question]: the model's text, or a fixed greeting
    when the call raises. *)
Definition generate_initial_question (text : result string) (module_title : string)
    : string :=
  match text with
  | Ok t => PyStr.strip t
  | Raise _ =>
      "Hey there! I'm excited to chat with you about " +:+ module_title
      +:+ " today. Let's start with the basics - can you walk me through what this module is all about and why it's important?"
  end.

(** [generate_final_feedback]: the model's text, or a fixed sentence when
    the call raises. *)
Definition generate_final_feedback (text : result string) (score : Z) (passed : bool)
    : string :=
  match text with
  | Ok t => PyStr.strip t
  | Raise _ =>
      if passed
      then "Congratulations! You've passed the viva with a score of "
           +:+ PyStr.str_int score +:+ "/100. Well done!"
      else "You scored " +:+ PyStr.str_int score
           +:+ "/100. Keep studying and you'll do better next time!"
  end.

(** The language model as the agent sees it. *)
Record Model : Type := mkModel {
  initial_question : string → option string → option string → result string;
  reply : list Viva.VivaMessage → string → string → Reply;
  feedback_text : Z → bool → string → list Viva.VivaMessage → result string
}.

(** The services of a request when the agent is this one, configured and
    constructed. *)
Definition env (m : Model) (uuid4 : string) (transcribe_audio : string → result string)
    (utcnow : nat → string) : Viva.Env :=
  Viva.mkEnv true true (Ok ()) uuid4
    (λ module_title module_description user_goal,
       Ok (generate_initial_question
             (initial_question m module_title module_description user_goal) module_title))
    transcribe_audio
    (λ history user_input module_context,
       Ok (generate_viva_response (reply m history user_input module_context)))
    (λ score passed module_title transcript,
       Ok (generate_final_feedback (feedback_text m score passed module_title transcript)
             score passed))
    utcnow.

End GeminiAgent.

Module VivaSpec.
Import Viva.

(** Number of transcript entries with a given role. *)
Definition count_role (r : string) (t : list VivaMessage) : Z :=
  Z.of_nat (length (filter (λ m, role m = r) t)).

(** 1 for a concluded session, 0 for an active one. *)
Definition concluded_bit (s : SessionData) : Z :=
  if decide (status s = "active") then 0 else 1.

(** Shape of a stored session: it is stored under its own id, holds one
    answer per counted question after the first, and one interviewer entry
    per question, plus the final feedback once concluded. *)
Definition transcript_ok (sid : string) (s : SessionData) : Prop :=
  session_id s = sid
  ∧ count_role "user" (transcript s) = question_count s - 1
  ∧ count_role "interviewer" (transcript s) = question_count s + concluded_bit s
  ∧ Z.of_nat (length (transcript s)) = 2 * question_count s - 1 + concluded_bit s.

(** Stored sessions after any sequence of calls in which the agent is the
    one of agents/viva_agent_gemini.py, over language models that satisfy
    [P]. *)
Inductive agent_reachable (P : GeminiAgent.Model → Prop) : gmap string SessionData → Prop :=
  | agent_reachable_empty : agent_reachable P ∅
  | agent_reachable_start m uuid4 stt clock db request :
      P m → agent_reachable P db →
      agent_reachable P (snd (start_viva (GeminiAgent.env m uuid4 stt clock) db request))
  | agent_reachable_interact m uuid4 stt clock db sid user_audio user_text :
      P m → agent_reachable P db →
      agent_reachable P
        (snd (interact_viva (GeminiAgent.env m uuid4 stt clock) db sid user_audio user_text)).

(** A language model that never delivers a reply the agent can read. *)
Definition silent (m : GeminiAgent.Model) : Prop :=
  ∀ history user_input module_context,
    GeminiAgent.reply m history user_input module_context = GeminiAgent.GenerationFailed
    ∨ GeminiAgent.reply m history user_input module_context = GeminiAgent.NotJSON.

(** The score can have moved by at most ten points per answer. *)
Definition score_envelope (s : SessionData) : Prop :=
  50 - 10 * (question_count s - 1) ≤ current_score s ≤ 50 + 10 * (question_count s - 1).

End VivaSpec.

Module VivaExamples2.

(** A language model that is down: every call raises. *)
Definition model_down : GeminiAgent.Model :=
  GeminiAgent.mkModel
    (λ _ _ _, Raise (OracleError "503 Service Unavailable"))
    (λ _ _ _, GeminiAgent.GenerationFailed)
    (λ _ _ _ _, Raise (OracleError "503 Service Unavailable")).

Definition down_env : Viva.Env :=
  GeminiAgent.env model_down "s1" (λ file, Ok file) (λ _, "2026-01-01T00:00:00").

(** A model that asks for fifty points at every turn. *)
Definition generous_model : GeminiAgent.Model :=
  GeminiAgent.mkModel
    (λ _ _ _, Ok "Welcome. What is a commit?")
    (λ _ _ _, GeminiAgent.Parsed (Some "Great. What is a branch?") (Some 50))
    (λ _ _ _ _, Ok "Well done.").

Definition generous_env : Viva.Env :=
  GeminiAgent.env generous_model "s1" (λ file, Ok file) (λ _, "2026-01-01T00:00:00").


Definition four_turns (env : Viva.Env) : gmap string Viva.SessionData :=
  let turn db := snd (Viva.interact_viva env db "s1" None (Some "An answer")) in
  turn (turn (turn (turn (snd (Viva.start_viva env ∅ Examples.start_request))))).

End VivaExamples2.

(** ** agents/viva_agent.py: what the text viva makes of the model's reply *)

Module TextAgent.

(** What [json.loads(response.text)] gave in [get_interviewer_response]:
    text that is no JSON, or an object with its three optional keys, the
    texts strings and the score an integer. *)
Inductive Reply : Type :=
  | NotJSON
  | Parsed (feedback next_question : option string) (score_update : option Z).

(** [get_interviewer_response]: the call to the model is outside the [try],
    so its exception leaves the function; only a JSON error is caught. *)
Definition get_interviewer_response (r : result Reply) : result (string * Z) :=
  match r with
  | Raise e => Raise e
  | Ok NotJSON => Ok ("Let's continue. Can you explain that in more detail?", -1)
  | Ok (Parsed feedback next_question score_update) =>
      let feedback := default "Let's continue." feedback in
      let next_question := default "What's your understanding of this topic?" next_question in
      let score_update := default (-1) score_update in
      Ok (feedback +:+ " " +:+ next_question, score_update)
  end.

(** The reply to [generate_final_feedback]: no JSON, or an object with its
    optional key. *)
Inductive FeedbackReply : Type :=
  | FeedbackNotJSON
  | FeedbackParsed (feedback : option string).

Definition generate_final_feedback (r : result FeedbackReply) (total_score : Z)
    : result string :=
  let passed := bool_decide (60 ≤ total_score) in
  match r with
  | Raise e => Raise e
  | Ok (FeedbackParsed feedback) =>
      Ok (default ("Your final score is " +:+ PyStr.str_int total_score +:+ "/100.") feedback)
  | Ok FeedbackNotJSON =>
      if passed
      then Ok ("You passed with " +:+ PyStr.str_int total_score +:+ "/100. Well done!")
      else Ok ("You scored " +:+ PyStr.str_int total_score
               +:+ "/100. Review the material and try again.")
  end.

(** The language model as the functions of the agent see it. *)
Record Model : Type := mkModel {
  reply : list Chat.ChatMessage → string → string → string → result Reply;
  first_question : string → option string → result string;
  feedback_reply : Z → string → result FeedbackReply
}.

Definition env (m : Model) (uuid4 : string) : Chat.Env :=
  Chat.mkEnv
    (λ history user_input module_topic target_role,
       get_interviewer_response (reply m history user_input module_topic target_role))
    (first_question m)
    (λ total_score module_topic,
       generate_final_feedback (feedback_reply m total_score module_topic) total_score)
    uuid4.


End TextAgent.

Module ChatExamples.

(** A text viva in which the final feedback cannot be generated. *)
Definition no_feedback_env : Chat.Env :=
  Chat.mkEnv (λ _ _ _ _, Ok ("Correct. What is a branch?", 80))
    (λ module_topic _, Ok ("What is " +:+ module_topic +:+ "?"))
    (λ _ _, Raise (OracleError "503 Service Unavailable"))
    "c1".

(** Four graded answers in session c1. *)
Definition four_graded : gmap string Chat.ChatSession :=
  let turn db := snd (Chat.viva_chat (Examples.chat_env 80) db (Examples.chat_turn "An answer")) in
  turn (turn (turn (turn ∅))).


End ChatExamples.

(** ** main.py: [get_user_stats], the dashboard figures *)

Module Stats.
Import Complete.

Record CurrentModule : Type := mkCurrentModule {
  cm_title : string;
  cm_description : string;
  cm_week : Z;
  cm_status : string
}.

Record ModuleLine : Type := mkModuleLine {
  line_title : string;
  line_status : string;
  line_week : Z;
  line_viva_score : option Z
}.

(** The dictionary returned by [get_user_stats].  Left out are
    [progress_percentage], which is computed in floating point, [goal],
    which is read from the profile, and [streak], which is always 0. *)
Record UserStats : Type := mkStats {
  total_modules : nat;
  completed_modules : nat;
  active_modules : nat;
  pending_modules : nat;
  current_module : option CurrentModule;
  viva_count : nat;
  avg_viva_score : Z;
  viva_scores : list Z;
  xp : Z;
  level : Z;
  stats_modules : list ModuleLine
}.

(** [len([m for m in modules if m.get("status") == s])] *)
Definition count_status (s : string) (ms : list LearningModule) : nat :=
  length (filter (λ m, status m = s) ms).

(** The loop that looks for the first active or pending module. *)
Fixpoint first_current (ms : list LearningModule) : option CurrentModule :=
  match ms with
  | [] => None
  | module :: rest =>
      if decide (status module ∈ ["active"; "pending"])
      then Some (mkCurrentModule (title module) (description module) (week module)
                   (status module))
      else first_current rest
  end.

(** [int(sum(xs) / len(xs)) if xs else 0], the division as in
    [Chat.int_mean]. *)
Definition average (xs : list Z) : Z :=
  match xs with
  | [] => 0
  | _ => Chat.int_mean xs
  end.

Definition stats_of (ms : list LearningModule) : UserStats :=
  let total_modules := length ms in
  let completed_modules := count_status "completed" ms in
  let active_modules := count_status "active" ms in
  let pending_modules := count_status "pending" ms in
  let current_module := first_current ms in
  let viva_scores := omap viva_score ms in
  let viva_count := length viva_scores in
  let avg_viva_score := average viva_scores in
  let xp := Z.of_nat completed_modules * 100 + Chat.sum viva_scores in
  let level := xp `div` 500 + 1 in
  mkStats total_modules completed_modules active_modules pending_modules current_module
    viva_count avg_viva_score viva_scores xp level
    ((λ m, mkModuleLine (title m) (status m) (week m) (viva_score m)) <$> ms).

Definition get_user_stats (db : users) (uid : string) : result UserStats :=
  match db !! uid with
  | None => Raise (HTTPException 404 ("User " +:+ uid +:+ " not found"))
  | Some user_data =>
      match roadmap user_data with
      | None => Raise (HTTPException 404 ("No roadmap found for user " +:+ uid))
      | Some roadmap => Ok (stats_of (modules roadmap))
      end
  end.

End Stats.

(** ** main.py: [sync_user_progress] *)

Module Sync.
Import Complete.

(** The request body: the modules of the ["roadmap"] entry, each with the
    status it may carry ([None] when the entry is missing or empty), and
    the ["vivaStatus"] dictionary with the truth value of each entry. *)
Record SyncRequest : Type := mkSyncRequest {
  frontend_roadmap : option (list (option string));
  viva_status : gmap string bool
}.

(** [not score or score < 70] *)
Definition needs_default_score (score : option Z) : bool :=
  match score with
  | None => true
  | Some s => bool_decide (s = 0) || bool_decide (s < 70)
  end.

(** The body of the loop for one stored module and the module sent from
    the browser at the same index; the second component is what is added
    to [synced_count]. *)
Definition sync_module (viva_status : gmap string bool) (backend_module : LearningModule)
    (frontend_status : option string) : LearningModule * Z :=
  let backend_module :=
    set_status backend_module (default (status backend_module) frontend_status) in
  if default false (viva_status !! title backend_module) then
    let backend_module := set_status backend_module "completed" in
    let backend_module :=
      if needs_default_score (viva_score backend_module)
      then set_viva_score backend_module 75
      else backend_module in
    (backend_module, 1)
  else (backend_module, 0).

(** [for i, backend_module in enumerate(backend_modules):
       if i < len(frontend_modules): ...] *)
Fixpoint sync_modules (viva_status : gmap string bool)
    (backend_modules : list LearningModule) (frontend_modules : list (option string))
    : list LearningModule * Z :=
  match backend_modules, frontend_modules with
  | backend_module :: backend_rest, frontend_status :: frontend_rest =>
      let '(backend_module, c) := sync_module viva_status backend_module frontend_status in
      let '(backend_rest, synced_count) :=
        sync_modules viva_status backend_rest frontend_rest in
      (backend_module :: backend_rest, c + synced_count)
  | _, _ => (backend_modules, 0)
  end.

(** [sync_user_progress]; returns [synced_modules].  A stored user whose
    roadmap is [None] makes [backend_roadmap.get] raise AttributeError,
    which the handler turns into a 500. *)
Definition sync_user_progress (db : users) (uid : string) (request : SyncRequest)
    : result Z * users :=
  match db !! uid with
  | None => (Raise (HTTPException 404 ("User " +:+ uid +:+ " not found")), db)
  | Some user_data =>
      match frontend_roadmap request with
      | None => (Raise (HTTPException 400 "No roadmap data provided"), db)
      | Some frontend_modules =>
          match roadmap user_data with
          | None =>
              (Raise (HTTPException 500
                 "Failed to sync progress: 'NoneType' object has no attribute 'get'"), db)
          | Some backend_roadmap =>
              let '(backend_modules, synced_count) :=
                sync_modules (viva_status request) (modules backend_roadmap)
                  frontend_modules in
              (Ok synced_count,
               update_user_roadmap db uid
                 (mkRoadmap (roadmap_user_id backend_roadmap) backend_modules))
          end
      end
  end.

End Sync.

Module ProgressSpec.
Import Complete.

(** The module at index [j] after a viva on the module at index [i] was
    completed with [score]. *)
Definition result_module (i : nat) (score : Z) (j : nat) (m : LearningModule)
    : LearningModule :=
  if decide (j = i) then
    mkLearningModule (title m) (description m) (week m)
      (if bool_decide (70 ≤ score) then "completed" else "pending")
      (resources m) (Some score)
  else if decide (j = S i ∧ 70 ≤ score) then set_status m "active"
  else m.

(** Two modules that differ at most in status and viva score. *)
Definition same_content (m m' : LearningModule) : Prop :=
  title m' = title m ∧ description m' = description m ∧ week m' = week m
  ∧ resources m' = resources m.

End ProgressSpec.

Module ProgressExamples.
Import Complete.

Definition four_modules : list LearningModule :=
  [ mkLearningModule "Git Basics" "Commits and branches" 1 "completed" [] (Some 82);
    mkLearningModule "Docker" "Images and containers" 2 "active" [] None;
    mkLearningModule "Kubernetes" "Pods and services" 3 "pending" [] None;
    mkLearningModule "CI/CD" "Pipelines" 4 "pending" [] None ].

Definition learner_db : users :=
  {[ "u1" := mkUserData (Some (mkRoadmap "u1" four_modules));
     "u2" := mkUserData None ]}.

Definition pass_docker : VivaCompleteRequest := mkRequest "u1" "Docker" 88.
Definition fail_docker : VivaCompleteRequest := mkRequest "u1" "Docker" 41.

Definition browser_state : Sync.SyncRequest :=
  Sync.mkSyncRequest (Some [Some "completed"; Some "active"; None])
    {[ "Docker" := true; "Kubernetes" := false ]}.

End ProgressExamples.

(** ** database.py and mongodb_database.py: the user documents;
       main.py: [get_user_status], [save_profile], [generate_roadmap] *)

Module Accounts.

Record UserProfile : Type := mkProfile {
  uid : string;
  goal : string;
  current_skills : list string;
  preferred_language : string;
  time_commitment : string;
  notification_time : string;
  weekly_hours : Z
}.

(** A stored user document. *)
Record UserDoc : Type := mkUserDoc {
  doc_uid : string;
  profile : UserProfile;
  roadmap : option Complete.Roadmap;
  onboarding_completed : bool;
  created_at : string;
  updated_at : string
}.

Abbreviation accounts := (gmap string UserDoc).

Definition get_user (db : accounts) (uid : string) : option UserDoc := db !! uid.

(** [save_user_profile]; [now] is the reading of the clock. *)
Definition save_user_profile (db : accounts) (uid : string) (profile : UserProfile)
    (roadmap : option Complete.Roadmap) (now : string) : UserDoc * accounts :=
  match db !! uid with
  | None =>
      let user := mkUserDoc uid profile roadmap (bool_decide (roadmap ≠ None)) now now in
      (user, <[uid := user]> db)
  | Some user =>
      let user :=
        mkUserDoc (doc_uid user) profile (Accounts.roadmap user)
          (onboarding_completed user) (created_at user) (updated_at user) in
      let user :=
        match roadmap with
        | Some r =>
            mkUserDoc (doc_uid user) (Accounts.profile user) (Some r) true
              (created_at user) (updated_at user)
        | None => user
        end in
      let user :=
        mkUserDoc (doc_uid user) (Accounts.profile user) (Accounts.roadmap user)
          (onboarding_completed user) (created_at user) now in
      (user, <[uid := user]> db)
  end.

Definition update_user_roadmap (db : accounts) (uid : string) (roadmap : Complete.Roadmap)
    (now : string) : result UserDoc * accounts :=
  match db !! uid with
  | None => (Raise (ValueError ("User " +:+ uid +:+ " not found")), db)
  | Some user =>
      let user :=
        mkUserDoc (doc_uid user) (profile user) (Some roadmap) true (created_at user) now in
      (Ok user, <[uid := user]> db)
  end.

Record UserStatus : Type := mkUserStatus {
  status_uid : string;
  status_onboarding_completed : bool;
  status_profile : option UserProfile;
  status_roadmap : option Complete.Roadmap
}.

Definition check_user_status (db : accounts) (uid : string) : UserStatus :=
  match get_user db uid with
  | None => mkUserStatus uid false None None
  | Some user =>
      mkUserStatus (doc_uid user) (onboarding_completed user) (Some (profile user))
        (roadmap user)
  end.

Definition delete_user (db : accounts) (uid : string) : bool * accounts :=
  match db !! uid with
  | Some _ => (true, delete uid db)
  | None => (false, db)
  end.

(** The services of the two handlers: the roadmap generator of
    agents/roadmap_agent.py and the clock. *)
Record Env : Type := mkEnv {
  generate_ai_roadmap : UserProfile → result Complete.Roadmap;
  utcnow : string
}.

(** [save_profile]: the profile is stored without roadmap; returns the
    stored document. *)
Definition save_profile (env : Env) (db : accounts) (profile : UserProfile)
    : UserDoc * accounts :=
  save_user_profile db (uid profile) profile None (utcnow env).

(** [generate_roadmap]: the generated roadmap is returned and stored with
    the profile. *)
Definition generate_roadmap (env : Env) (db : accounts) (profile : UserProfile)
    : result Complete.Roadmap * accounts :=
  match generate_ai_roadmap env profile with
  | Raise e =>
      (Raise (HTTPException 500 ("Failed to generate roadmap: " +:+ Viva.str_exn e)), db)
  | Ok roadmap =>
      (Ok roadmap,
       snd (save_user_profile db (uid profile) profile (Some roadmap) (utcnow env)))
  end.

End Accounts.

Module AccountsSpec.
Import Accounts.

(** The user documents after any sequence of calls, from an empty
    collection. *)
Inductive accounts_reachable : gmap string UserDoc → Prop :=
  | accounts_reachable_empty : accounts_reachable ∅
  | accounts_reachable_profile env db profile :
      accounts_reachable db → accounts_reachable (snd (save_profile env db profile))
  | accounts_reachable_roadmap env db profile :
      accounts_reachable db → accounts_reachable (snd (generate_roadmap env db profile))
  | accounts_reachable_update db uid roadmap now :
      accounts_reachable db →
      accounts_reachable (snd (update_user_roadmap db uid roadmap now))
  | accounts_reachable_delete db uid :
      accounts_reachable db → accounts_reachable (snd (delete_user db uid)).

(** What the handlers of the viva and of the dashboard read of a
    document. *)
Definition user_data (user : UserDoc) : Complete.UserData :=
  Complete.mkUserData (roadmap user).

Definition doc_ok (key : string) (user : UserDoc) : Prop :=
  doc_uid user = key ∧ (onboarding_completed user = true ↔ is_Some (roadmap user)).

End AccountsSpec.

Module AccountsExamples.
Import Accounts.

Definition learner : UserProfile :=
  mkProfile "u1" "DevOps" ["Python"] "Python" "1 hour a day" "09:00" 10.

Definition planner : Env :=
  mkEnv (λ _, Ok (Complete.mkRoadmap "generated_user_id" ProgressExamples.four_modules))
    "2026-01-01T00:00:00".

Definition onboarded : gmap string UserDoc :=
  snd (generate_roadmap planner (snd (save_profile planner ∅ learner)) learner).

End AccountsExamples.

(** ** agents/scheduler_agent.py ([_generate_module_breakdown]) and
       agents/roadmap_agent.py ([generate_roadmap]): reading the reply of
       the language model *)

Module Reply.









End Reply.

Module ReplyExamples.


End ReplyExamples.

(** * Properties *)

(** ** The calendar allocator *)

Section AllocatorFacts.
Import Allocator Spec.








End AllocatorFacts.

Section AllocatorClaims.
Import Spec Examples.



(** The three-module scenario of the specification: Monday start, two hours
    a day. *)
Example allocation_scenario :
  (day <$> Allocator.allocate scenario_modules 2 1)
  = [ "Monday"; "Tuesday"; "Wednesday"; "Thursday"; "Friday"; "Saturday"; "Sunday";
      "Monday"; "Tuesday"; "Wednesday"; "Thursday"; "Friday";
      "Saturday"; "Sunday"; "Monday"; "Tuesday" ]
  ∧ (activity_type <$> Allocator.allocate scenario_modules 2 1)
  = [ learning; learning; learning; learning; learning; coding_practice; viva;
      learning; learning; learning; coding_practice; viva;
      learning; learning; coding_practice; viva ].
Proof. split; reflexivity. Qed.

End AllocatorClaims.

(** ** The replanner *)

Section ReplannerFacts.
Import Replanner Spec.

Lemma index_from_elem (x : string) (xs : list string) (i : Z) :
  x ∈ xs → ∃ k, index_from x xs i = Some k.
Proof.
  revert i. induction xs as [|y ys IH]; intros i Hin; simpl.
  - by apply elem_of_nil in Hin.
  - case_decide; [eauto|].
    apply elem_of_cons in Hin as [->|Hin]; [done|]. by apply IH.
Qed.

Lemma shift_step_ok (k : Z) (h : store) (acc : list ref) (r : ref) (s : TimeSlot) :
  h !! r = Some s → day s ∈ days_of_week →
  shift_step k (h, acc) r = Ok (h ++ [shift_slot k s], acc ++ [length h]).
Proof.
  intros Hr Hday. unfold shift_step, deref. rewrite Hr. simpl.
  unfold list_index, shift_slot, advance_label.
  destruct (index_from_elem (day s) days_of_week 0 Hday) as [i ->].
  reflexivity.
Qed.

Lemma shift_loop_ok (k : Z) (calendar : list ref) (slots : list TimeSlot) :
  ∀ (h h0 : store) (acc : list ref),
  Forall2 (λ r s, h0 !! r = Some s ∧ day s ∈ days_of_week) calendar slots →
  h0 `prefix_of` h →
  shift_loop k (h, acc) calendar
  = Ok (h ++ (shift_slot k <$> slots),
        acc ++ seq (length h) (length slots)).
Proof.
  intros h h0 acc Hcal. revert h acc.
  induction Hcal as [|r s calendar slots [Hr Hday] _ IH]; intros h acc Hpre;
    cbn [shift_loop].
  - simpl. by rewrite !app_nil_r.
  - rewrite (shift_step_ok k h acc r s); [|by eapply prefix_lookup_Some|done].
    cbn [mbind result_bind]. rewrite IH.
    + rewrite length_app. simpl. rewrite <- !app_assoc. simpl.
      by replace (length h + 1)%nat with (S (length h)) by lia.
    + etrans; [done|]. by apply prefix_app_r.
Qed.

(** Slots appended to a store are referred to by the next addresses. *)
Lemma new_calendar_slots (h : store) (new : list TimeSlot) :
  Forall (λ s, day s ∈ days_of_week) new →
  calendar_slots (h ++ new) (seq (length h) (length new)) new.
Proof.
  revert h. induction new as [|s new IH]; intros h Hnew; [constructor|].
  apply Forall_cons in Hnew as [Hs Hnew]. simpl. constructor.
  - split; [|done]. by apply list_lookup_middle.
  - specialize (IH (h ++ [s]) Hnew).
    rewrite length_app, <- app_assoc in IH. simpl in IH.
    by replace (length h + 1)%nat with (S (length h)) in IH by lia.
Qed.

Lemma insert_and_shift_ok (k : Z) (h : store) (calendar : list ref)
    (slots : list TimeSlot) (new_slot : ref) :
  calendar_slots h calendar slots →
  _insert_and_shift_calendar h calendar new_slot k
  = Ok (h ++ (shift_slot k <$> slots), new_slot :: seq (length h) (length slots)).
Proof.
  intros Hcal. unfold _insert_and_shift_calendar.
  by rewrite (shift_loop_ok k calendar slots h h [new_slot] Hcal).
Qed.

Lemma find_and_fail_spec (ms : list LearningModuleScheduler) (mid : string) :
  (∃ m, m ∈ ms ∧ id m = mid) →
  ∃ i m, ms !! i = Some m ∧ id m = mid
         ∧ (∀ j m', (j < i)%nat → ms !! j = Some m' → id m' ≠ mid)
         ∧ find_and_fail ms mid = Some (fail_module m, <[i := fail_module m]> ms).
Proof.
  induction ms as [|m0 ms IH]; intros (m & Hin & Hid).
  - by apply elem_of_nil in Hin.
  - simpl. case_decide as Hm0.
    + exists 0%nat, m0. split_and!; [done|done| |done]. intros j m' Hj. lia.
    + apply elem_of_cons in Hin as [->|Hin]; [done|].
      destruct IH as (i & m1 & Hi & Hid1 & Hfirst & ->); [eauto|].
      exists (S i), m1. split_and!; [done|done| |done].
      intros [|j] m' Hj; simpl; [by intros [= <-]|].
      apply Hfirst. lia.
Qed.

Lemma getitem_weekday (i : Z) :
  0 ≤ i < 7 → getitem days_of_week i ∈ days_of_week.
Proof.
  intros Hi.
  assert (i = 0 ∨ i = 1 ∨ i = 2 ∨ i = 3 ∨ i = 4 ∨ i = 5 ∨ i = 6) as Hcases by lia.
  destruct Hcases as [->|[->|[->|[->|[->|[->| ->]]]]]]; unfold getitem; simpl;
    repeat constructor.
Qed.

Lemma day_label_weekday (d : date) : getitem days_of_week (weekday d) ∈ days_of_week.
Proof. apply getitem_weekday. unfold weekday. apply Z.mod_pos_bound. lia. Qed.

Lemma shift_slot_weekday (k : Z) (s : TimeSlot) :
  day s ∈ days_of_week → day (shift_slot k s) ∈ days_of_week.
Proof.
  intros Hday. unfold shift_slot, advance_label. cbn [day].
  destruct (index_from (day s) days_of_week 0); [|done].
  apply getitem_weekday. apply Z.mod_pos_bound. lia.
Qed.

(** The calendar made by the allocator carries weekday labels only. *)
Lemma allocate_weekdays (ms : list LearningModuleScheduler) (daily_hours : Z) (cursor : date) :
  Forall (λ s, day s ∈ days_of_week) (Allocator.allocate ms daily_hours cursor).
Proof.
  revert cursor. induction ms as [|m ms IH]; intros cursor; simpl; [constructor|].
  case_decide; [apply IH|].
  apply Forall_app. split.
  - unfold Allocator.study_slots. apply Forall_fmap, Forall_forall. intros i _.
    apply day_label_weekday.
  - simpl. apply Forall_cons. split; [apply day_label_weekday|].
    apply Forall_cons. split; [apply day_label_weekday|]. apply IH.
Qed.

Lemma advance_label_weekday (k i : Z) :
  0 ≤ i < 7 →
  advance_label k (getitem days_of_week i) = getitem days_of_week ((i + k) `mod` 7).
Proof.
  intros Hi.
  assert (i = 0 ∨ i = 1 ∨ i = 2 ∨ i = 3 ∨ i = 4 ∨ i = 5 ∨ i = 6) as Hcases by lia.
  destruct Hcases as [->|[->|[->|[->|[->|[->| ->]]]]]]; reflexivity.
Qed.

End ReplannerFacts.

Section ReplannerClaims.
Import Replanner Spec Examples.



(** C9 (as the code has it): for every schedule and every module id
    present in it, [replan_after_failure] assigns [status = failed] and
    [viva_passed = False] to the first module with that id, whatever its
    status was, and leaves its other fields and every other module as they
    were; no score is stored, the module record having no field for one.
    The assignment is made before the language model is called and stays
    when that call raises. *)
Theorem replan_marks_module_failed (env : Env) (h : store) (current_schedule : UserSchedule)
    (failed_module_id : string) :
  (∃ m, m ∈ modules current_schedule ∧ id m = failed_module_id) →
  ∃ (i : nat) (m : LearningModuleScheduler),
    modules current_schedule !! i = Some m
    ∧ id m = failed_module_id
    ∧ (∀ j m', (j < i)%nat → modules current_schedule !! j = Some m' → id m' ≠ failed_module_id)
    ∧ modules (schedule_after (replan_after_failure env h current_schedule failed_module_id))
      = <[i := fail_module m]> (modules current_schedule)
    ∧ fail_module m
      = mkModule (id m) (title m) (prerequisites m) (estimated_hours m) failed false
    ∧ (∀ j m', j ≠ i → modules current_schedule !! j = Some m' →
         modules (schedule_after (replan_after_failure env h current_schedule failed_module_id)) !! j
         = Some m').
Proof.
  intros Hpresent.
  destruct (find_and_fail_spec _ _ Hpresent) as (i & m & Hi & Hid & Hfirst & Hfind).
  assert (Hmods :
    modules (schedule_after (replan_after_failure env h current_schedule failed_module_id))
    = <[i := fail_module m]> (modules current_schedule)).
  { unfold replan_after_failure. rewrite Hfind.
    destruct (_generate_remedial_focus env (fail_module m)); [|done].
    unfold new_TimeSlot.
    destruct (_insert_and_shift_calendar _ _ _ _) as [[h' c']|e]; done. }
  exists i, m. split_and!; try done.
  intros j m' Hj Hm'. rewrite Hmods. by rewrite list_lookup_insert_ne.
Qed.

Lemma replan_marks_module_failed_witness :
  ∃ (i : nat) (m : LearningModuleScheduler),
    modules sample_schedule !! i = Some m
    ∧ modules (schedule_after (replan_after_failure sample_replan_env sample_store
                                 sample_schedule "M1"))
      = <[i := fail_module m]> (modules sample_schedule).
Proof.
  assert (Hpresent : ∃ m, m ∈ modules sample_schedule ∧ id m = "M1").
  { exists (mkModule "M1" "M1" [] 10 unlocked false). split; [left|reflexivity]. }
  destruct (replan_marks_module_failed sample_replan_env sample_store sample_schedule
              "M1" Hpresent) as (i & m & Hi & _ & _ & Hmods & _).
  exists i, m. split; [exact Hi|exact Hmods].
Defined.

(** C9, as stated, fails: the step has no precondition on the status.  The
    module M2 of the sample schedule is locked, the call returns, and M2 is
    failed afterwards. *)
Lemma replan_fails_locked_module :
  let out := replan_after_failure sample_replan_env sample_store sample_schedule "M2" in
  (status <$> modules sample_schedule !! 1%nat) = Some locked
  ∧ raised out = None
  ∧ (status <$> modules (schedule_after out) !! 1%nat) = Some failed
  ∧ ¬ (raised out = None →
       (status <$> modules sample_schedule !! 1%nat) = Some unlocked).
Proof.
  cbv zeta. split_and!; [reflexivity|reflexivity|reflexivity|].
  intros Hclaim. specialize (Hclaim eq_refl). discriminate Hclaim.
Qed.

End ReplannerClaims.

(** ** The unlock step of [complete_viva] *)

Section CompleteFacts.
Import Complete Spec.










End CompleteFacts.

Section CompleteClaims.
Import Complete Spec Examples.




End CompleteClaims.

(** ** The spoken viva *)

Section VivaFacts.
Import Viva Spec.

Lemma update_score_range (s : SessionData) (score_update : Z) :
  current_score (update_score s score_update) = clamp_score (current_score s + score_update)
  ∧ 0 ≤ current_score (update_score s score_update) ≤ 100.
Proof. unfold update_score, clamp_score. simpl. lia. Qed.

Lemma conclude_inv (env : Env) (s s' : SessionData) (rt rt' : string)
    (fr : option FinalResult) :
  conclude env s rt = Ok (s', rt', fr) →
  current_score s' = current_score s
  ∧ question_count s' = question_count s
  ∧ session_id s' = session_id s
  ∧ status s' = (if decide (5 ≤ question_count s)
                 then (if bool_decide (70 ≤ current_score s) then "passed" else "failed")
                 else status s)
  ∧ (5 ≤ question_count s →
     ∃ fb, fr = Some (mkFinalResult (bool_decide (70 ≤ current_score s)) (current_score s) fb))
  ∧ (question_count s < 5 → fr = None ∧ s' = s ∧ rt' = rt).
Proof.
  unfold conclude. case_decide as Hq.
  - destruct (generate_final_feedback env _ _ _ _) as [fb|e] eqn:Hfb.
    + cbn [mbind result_bind]. intros [= <- <- <-]. simpl.
      split_and!; try done; try lia; eauto.
    + cbn [mbind result_bind]. discriminate.
  - intros [= <- <- <-]. split_and!; try done; try lia.
Qed.

Lemma interact_viva_try_inv (env : Env) (db db' : gmap string SessionData) (sid : string)
    (user_audio user_text : option string) (resp : VivaInteractResponse) :
  interact_viva_try env db sid user_audio user_text = Ok (resp, db') →
  ∃ (s s' : SessionData) (user_input rt : string) (upd : Z),
    db !! sid = Some s
    ∧ status s = "active"
    ∧ resolve_user_input env user_audio user_text = Ok user_input
    ∧ generate_viva_response env
        (transcript s ++ [mkMessage "user" user_input (utcnow env 0)]) user_input
        ("Module: " +:+ module_title s) = Ok (rt, upd)
    ∧ db' = <[sid := s']> db
    ∧ current_score s' = clamp_score (current_score s + upd)
    ∧ question_count s' = question_count s + 1
    ∧ status s' = status_after (question_count s') (current_score s')
    ∧ resp_status resp = status s'
    ∧ resp_current_score resp = current_score s'
    ∧ resp_question_count resp = question_count s'
    ∧ (5 ≤ question_count s' →
       ∃ fb, final_result resp
             = Some (mkFinalResult (bool_decide (70 ≤ current_score s')) (current_score s') fb))
    ∧ (question_count s' < 5 → final_result resp = None).
Proof.
  unfold interact_viva_try, get_session.
  destruct (check_api_keys env) as [[]|e]; cbn [mbind result_bind]; [|discriminate].
  destruct (db !! sid) as [s|] eqn:Hs; [|discriminate].
  case_decide as Hactive; [discriminate|].
  destruct (VivaAgent_init env) as [[]|e]; cbn [mbind result_bind]; [|discriminate].
  destruct (resolve_user_input env user_audio user_text) as [user_input|e] eqn:Hin;
    cbn [mbind result_bind]; [|discriminate].
  destruct (generate_viva_response env _ _ _) as [[rt upd]|e] eqn:Hgen;
    cbn [mbind result_bind]; [|discriminate].
  destruct (conclude env _ rt) as [[[s1 rt1] fr]|e] eqn:Hconc;
    cbn [mbind result_bind]; [|discriminate].
  unfold update_session. rewrite Hs. cbn [mbind result_bind].
  intros [= <- <-].
  apply conclude_inv in Hconc as (Hsc & Hqc & Hsid & Hst & Hfin & Hnone).
  unfold update_score, set_question_count, append_message, set_current_score in *.
  cbn [current_score question_count status transcript module_title] in *.
  eexists s, _, user_input, rt, upd.
  split_and!; try done; cbn [current_score question_count status resp_status
    resp_current_score resp_question_count final_result].
  - rewrite Hst, Hsc, Hqc. unfold status_after. by case_decide.
  - intros Hq. rewrite Hqc in Hq. destruct (Hfin Hq) as [fb ->].
    exists fb. by rewrite Hsc.
  - intros Hq. rewrite Hqc in Hq. by destruct (Hnone Hq).
Qed.

Lemma interact_viva_ok_inv (env : Env) (db db' : gmap string SessionData) (sid : string)
    (user_audio user_text : option string) (resp : VivaInteractResponse) :
  interact_viva env db sid user_audio user_text = (Ok resp, db') →
  interact_viva_try env db sid user_audio user_text = Ok (resp, db').
Proof.
  unfold interact_viva.
  destruct (interact_viva_try env db sid user_audio user_text) as [[r d]|[]];
    intros [= <- <-]; done.
Qed.

Lemma interact_viva_outcome (env : Env) (db : gmap string SessionData) (sid : string)
    (user_audio user_text : option string) :
  (∃ e, interact_viva env db sid user_audio user_text = (Raise e, db))
  ∨ (∃ resp db', interact_viva env db sid user_audio user_text = (Ok resp, db')).
Proof.
  unfold interact_viva.
  destruct (interact_viva_try env db sid user_audio user_text) as [[r d]|[]]; eauto.
Qed.

Lemma interact_viva_not_active (env : Env) (db : gmap string SessionData) (sid : string)
    (user_audio user_text : option string) (s : SessionData) :
  db !! sid = Some s → status s ≠ "active" →
  (∃ e, interact_viva env db sid user_audio user_text = (Raise e, db))
  ∧ (GEMINI_API_KEY env = true → GROQ_API_KEY env = true →
     interact_viva env db sid user_audio user_text
     = (Raise (HTTPException 400 ("Session is already " +:+ status s)), db)).
Proof.
  intros Hs Hst. split.
  - destruct (interact_viva_outcome env db sid user_audio user_text)
      as [?|(resp & db' & Hok)]; [done|].
    apply interact_viva_ok_inv, interact_viva_try_inv in Hok
      as (s0 & s' & ui & rt & upd & Hs0 & Hact & _).
    rewrite Hs in Hs0. injection Hs0 as <-. done.
  - intros Hg Hq. unfold interact_viva, interact_viva_try, check_api_keys, get_session.
    rewrite Hg, Hq, Hs. cbn [negb mbind result_bind]. by rewrite decide_True.
Qed.

(** A turn on an active session with every service answering. *)
Lemma interact_viva_turn (env : Env) (db : gmap string SessionData) (sid : string)
    (user_audio user_text : option string) (s : SessionData)
    (user_input rt : string) (upd : Z) :
  GEMINI_API_KEY env = true → GROQ_API_KEY env = true → VivaAgent_init env = Ok () →
  db !! sid = Some s → status s = "active" →
  resolve_user_input env user_audio user_text = Ok user_input →
  generate_viva_response env
    (transcript s ++ [mkMessage "user" user_input (utcnow env 0)]) user_input
    ("Module: " +:+ module_title s) = Ok (rt, upd) →
  (∀ sc p ti tr, ∃ fb, generate_final_feedback env sc p ti tr = Ok fb) →
  ∃ (resp : VivaInteractResponse) (s' : SessionData),
    interact_viva env db sid user_audio user_text = (Ok resp, <[sid := s']> db)
    ∧ current_score s' = clamp_score (current_score s + upd)
    ∧ question_count s' = question_count s + 1
    ∧ status s' = status_after (question_count s') (current_score s')
    ∧ resp_status resp = status s'
    ∧ resp_current_score resp = current_score s'
    ∧ resp_question_count resp = question_count s'
    ∧ (5 ≤ question_count s' →
       ∃ fb, final_result resp
             = Some (mkFinalResult (bool_decide (70 ≤ current_score s')) (current_score s') fb))
    ∧ (question_count s' < 5 → final_result resp = None).
Proof.
  intros Hg Hq Hagent Hs Hact Hin Hgen Hfb.
  assert (Hok : ∃ resp db', interact_viva_try env db sid user_audio user_text = Ok (resp, db')).
  { unfold interact_viva_try, check_api_keys, get_session.
    rewrite Hg, Hq, Hs, Hagent, Hin. cbn [negb mbind result_bind].
    rewrite decide_False by (by intros ?).
    set (s1 := append_message s (mkMessage "user" user_input (utcnow env 0))).
    assert (E : generate_viva_response env (transcript s1) user_input
                  ("Module: " +:+ module_title s1) = Ok (rt, upd)) by exact Hgen.
    rewrite E. cbn [mbind result_bind].
    destruct (conclude env _ rt) as [[[s2 rt2] fr]|e] eqn:Hc; cbn [mbind result_bind].
    - unfold update_session. rewrite Hs. cbn [mbind result_bind]. eauto.
    - exfalso. unfold conclude in Hc. case_decide; [|discriminate].
      match type of Hc with
      | context [generate_final_feedback env ?a ?b ?c ?d] =>
          destruct (Hfb a b c d) as [fb Hfb']; rewrite Hfb' in Hc
      end.
      discriminate. }
  destruct Hok as (resp & db' & Hok).
  destruct (interact_viva_try_inv _ _ _ _ _ _ _ Hok)
    as (s0 & s' & ui & rt0 & upd0 & Hs0 & _ & Hin0 & Hgen0 & -> & Hrest).
  rewrite Hs in Hs0. injection Hs0 as <-.
  rewrite Hin in Hin0. injection Hin0 as <-.
  rewrite Hgen in Hgen0. injection Hgen0 as <- <-.
  exists resp, s'. split; [|exact Hrest].
  unfold interact_viva. by rewrite Hok.
Qed.

Lemma start_viva_outcome (env : Env) (db : gmap string SessionData)
    (request : VivaStartRequest) :
  (∃ e, start_viva env db request = (Raise e, db))
  ∨ (∃ (resp : VivaStartResponse) (q : string),
       generate_initial_question env (req_module_title request)
         (req_module_description request) (req_user_goal request) = Ok q
       ∧ start_viva env db request
         = (Ok resp,
            <[uuid4 env :=
                mkSession (uuid4 env) (req_module_id request) (req_module_title request)
                  [mkMessage "interviewer" q (utcnow env 0)] 50 "active" 1
                  (utcnow env 0) (utcnow env 0)]> db)
       ∧ start_session_id resp = uuid4 env).
Proof.
  unfold start_viva, start_viva_try.
  destruct (check_api_keys env) as [[]|e]; cbn [mbind result_bind]; [|eauto].
  destruct (VivaAgent_init env) as [[]|e]; cbn [mbind result_bind]; [|eauto].
  destruct (generate_initial_question env _ _ _) as [q|e]; cbn [mbind result_bind]; [|eauto].
  right. destruct (PyStr.split_once "?" q) as [before [after|]];
    eexists _, q; split_and!; reflexivity.
Qed.

Lemma status_after_active (qc sc : Z) : status_after qc sc = "active" ↔ qc < 5.
Proof.
  unfold status_after. case_decide; [|split; [lia|done]].
  split; [|lia]. by case_bool_decide.
Qed.

Lemma viva_reachable_ok (db : gmap string SessionData) :
  viva_reachable db → ∀ sid s, db !! sid = Some s → session_ok s.
Proof.
  induction 1 as [|env db request _ IH|env db sid0 a t _ IH]; intros sid s Hs.
  - by rewrite lookup_empty in Hs.
  - destruct (start_viva_outcome env db request)
      as [[e He]|(resp & q & _ & Hok & _)].
    + rewrite He in Hs. by eapply IH.
    + rewrite Hok in Hs. cbn [snd] in Hs.
      destruct (decide (uuid4 env = sid)) as [<-|Hne].
      * rewrite lookup_insert_eq in Hs. injection Hs as <-.
        unfold session_ok. simpl. split_and!; try lia. reflexivity.
      * rewrite lookup_insert_ne in Hs by done. by eapply IH.
  - destruct (interact_viva_outcome env db sid0 a t)
      as [[e He]|(resp & db' & Hok)].
    + rewrite He in Hs. by eapply IH.
    + rewrite Hok in Hs. cbn [snd] in Hs.
      apply interact_viva_ok_inv, interact_viva_try_inv in Hok
        as (s0 & s' & ui & rt & upd & Hs0 & Hact & _ & _ & -> & Hsc & Hqc & Hst & _).
      destruct (decide (sid0 = sid)) as [->|Hne].
      * rewrite lookup_insert_eq in Hs. injection Hs as <-.
        destruct (IH _ _ Hs0) as (_ & Hq0 & Hst0).
        rewrite Hact in Hst0. symmetry in Hst0. apply status_after_active in Hst0.
        unfold session_ok.
        split; [rewrite Hsc; unfold clamp_score; lia|].
        split; [rewrite Hqc; lia|]. exact Hst.
      * rewrite lookup_insert_ne in Hs by done. by eapply IH.
Qed.

End VivaFacts.

Section VivaClaims.
Import Viva Spec Examples.

Lemma complete_viva_passed_flag (users : gmap string Complete.UserData)
    (request : Complete.VivaCompleteRequest) (resp : Complete.VivaCompleteResponse) :
  fst (Complete.complete_viva users request) = Ok resp →
  Complete.passed resp = bool_decide (70 ≤ Complete.final_score request).
Proof.
  unfold Complete.complete_viva.
  destruct (users !! Complete.user_id request) as [u|]; [|discriminate].
  destruct (Complete.roadmap u) as [r|]; [|discriminate].
  destruct (Complete.modules r) as [|m ms]; [discriminate|].
  destruct (Complete.find_index _ _ _) as [i|]; [|discriminate].
  destruct (Complete.apply_result _ _ _) as [ms' u'].
  by intros [= <-].
Qed.

(** C4: a turn on an active session (services answering) increments the
    counter and then runs the conclusion check: the session leaves the
    active state exactly when the counter is at least 5, the final score is
    the clamped running score, the session is passed when that score is at
    least 70 and failed otherwise, and every later interaction is rejected
    with the stored sessions unchanged.  On sessions produced by the
    handlers the counter is below 5 while active, so the check fires exactly
    when it reaches 5.  [complete_viva] reports a pass with the same
    threshold of 70. *)
Theorem viva_conclusion_check (env : Env) (db : gmap string SessionData) (sid : string)
    (user_audio user_text : option string) (s : SessionData)
    (user_input rt : string) (upd : Z) :
  GEMINI_API_KEY env = true → GROQ_API_KEY env = true → VivaAgent_init env = Ok () →
  db !! sid = Some s → status s = "active" →
  resolve_user_input env user_audio user_text = Ok user_input →
  generate_viva_response env
    (transcript s ++ [mkMessage "user" user_input (utcnow env 0)]) user_input
    ("Module: " +:+ module_title s) = Ok (rt, upd) →
  (∀ sc p ti tr, ∃ fb, generate_final_feedback env sc p ti tr = Ok fb) →
  ∃ (resp : VivaInteractResponse) (s' : SessionData),
    interact_viva env db sid user_audio user_text = (Ok resp, <[sid := s']> db)
    ∧ question_count s' = question_count s + 1
    ∧ current_score s' = clamp_score (current_score s + upd)
    ∧ (status s' ≠ "active" ↔ 5 ≤ question_count s')
    ∧ (is_Some (final_result resp) ↔ 5 ≤ question_count s')
    ∧ (5 ≤ question_count s' →
       status s' = (if bool_decide (70 ≤ current_score s') then "passed" else "failed")
       ∧ resp_status resp = status s'
       ∧ ∃ fb, final_result resp
               = Some (mkFinalResult (bool_decide (70 ≤ current_score s'))
                         (current_score s') fb))
    ∧ (5 ≤ question_count s' →
       ∀ env2 audio2 text2,
         ∃ e, interact_viva env2 (<[sid := s']> db) sid audio2 text2
              = (Raise e, <[sid := s']> db))
    ∧ (viva_reachable db →
       question_count s < 5 ∧ (status s' ≠ "active" ↔ question_count s' = 5))
    ∧ (∀ users request cresp,
         fst (Complete.complete_viva users request) = Ok cresp →
         Complete.passed cresp = bool_decide (70 ≤ Complete.final_score request)).
Proof.
  intros Hg Hq Hagent Hs Hact Hin Hgen Hfb.
  destruct (interact_viva_turn env db sid user_audio user_text s user_input rt upd
              Hg Hq Hagent Hs Hact Hin Hgen Hfb)
    as (resp & s' & Hrun & Hsc & Hqc & Hst & Hrst & _ & _ & Hfin & Hnone).
  assert (Hconcl : status s' ≠ "active" ↔ 5 ≤ question_count s').
  { rewrite Hst. split.
    - intros Hna. destruct (decide (5 ≤ question_count s')); [done|].
      destruct Hna. apply status_after_active. lia.
    - intros Hq5 Ha. apply status_after_active in Ha. lia. }
  exists resp, s'. split_and!; try done.
  - split.
    + intros [fr Hfr]. destruct (decide (5 ≤ question_count s')); [done|].
      rewrite Hnone in Hfr by lia. discriminate.
    + intros Hq5. destruct (Hfin Hq5) as [fb ->]. eauto.
  - intros Hq5. split_and!; [|done|by apply Hfin].
    rewrite Hst at 1. unfold status_after. by rewrite decide_True.
  - intros Hq5 env2 audio2 text2.
    eapply interact_viva_not_active; [apply lookup_insert_eq|by apply Hconcl].
  - intros Hreach. destruct (viva_reachable_ok db Hreach sid s Hs) as (_ & Hq0 & Hst0).
    rewrite Hact in Hst0. symmetry in Hst0. apply status_after_active in Hst0.
    split; [done|]. rewrite Hconcl. lia.
  - apply complete_viva_passed_flag.
Qed.

Lemma viva_conclusion_check_witness :
  ∃ (resp : VivaInteractResponse) (s' : SessionData),
    interact_viva (viva_env 7) after_three "s1" None (Some "It tracks changes")
    = (Ok resp, <["s1" := s']> after_three)
    ∧ question_count s' = 5
    ∧ current_score s' = 78
    ∧ status s' = "passed".
Proof.
  edestruct (viva_conclusion_check (viva_env 7) after_three "s1" None
               (Some "It tracks changes"))
    as (resp & s' & Hrun & Hqc & Hsc & _ & _ & Hfin & _).
  - reflexivity.
  - reflexivity.
  - reflexivity.
  - vm_compute. reflexivity.
  - reflexivity.
  - reflexivity.
  - reflexivity.
  - intros sc p ti tr. exists "That is all.". reflexivity.
  - exists resp, s'. simpl in Hqc, Hsc.
    split; [exact Hrun|]. split; [exact Hqc|]. split; [exact Hsc|].
    destruct Hfin as [Hst _]; [rewrite Hqc; lia|].
    rewrite Hst, Hsc. reflexivity.
Defined.

(** C5: the update step of [interact_viva] leaves [current_score] equal to
    [clamp(current_score + score_update, 0, 100)], hence within [0, 100],
    whatever the size of the update; a session starts at 50; and every
    session stored after any sequence of calls to the two handlers has its
    score within [0, 100]. *)
Theorem current_score_in_range :
  (∀ (s : SessionData) (score_update : Z),
     current_score (update_score s score_update)
     = clamp_score (current_score s + score_update)
     ∧ 0 ≤ current_score (update_score s score_update) ≤ 100)
  ∧ (∀ env db request resp db',
       start_viva env db request = (Ok resp, db') →
       ∃ s, db' !! start_session_id resp = Some s ∧ current_score s = 50)
  ∧ (∀ env db sid user_audio user_text resp db',
       interact_viva env db sid user_audio user_text = (Ok resp, db') →
       ∃ s s' upd,
         db !! sid = Some s ∧ db' !! sid = Some s'
         ∧ current_score s' = clamp_score (current_score s + upd)
         ∧ 0 ≤ current_score s' ≤ 100
         ∧ resp_current_score resp = current_score s')
  ∧ (∀ db, viva_reachable db →
       ∀ sid s, db !! sid = Some s → 0 ≤ current_score s ≤ 100).
Proof.
  split_and!.
  - apply update_score_range.
  - intros env db request resp db' Hrun.
    destruct (start_viva_outcome env db request)
      as [[e He]|(resp0 & q & _ & Hok & Hsid)]; [congruence|].
    rewrite Hok in Hrun. injection Hrun as <- <-.
    eexists. rewrite Hsid, lookup_insert_eq. split; reflexivity.
  - intros env db sid user_audio user_text resp db' Hrun.
    apply interact_viva_ok_inv, interact_viva_try_inv in Hrun
      as (s & s' & ui & rt & upd & Hs & _ & _ & _ & -> & Hsc & _ & _ & _ & Hrsc & _).
    exists s, s', upd. rewrite lookup_insert_eq.
    split_and!; try done; rewrite Hsc; unfold clamp_score; lia.
  - intros db Hreach sid s Hs. by destruct (viva_reachable_ok db Hreach sid s Hs).
Qed.

Lemma current_score_in_range_witness :
  viva_reachable after_three
  ∧ ∃ s, after_three !! "s1" = Some s ∧ 0 ≤ current_score s ≤ 100.
Proof.
  split; [unfold after_three; repeat constructor|].
  eexists. split; [vm_compute; reflexivity|].
  refine (proj2 (proj2 (proj2 current_score_in_range)) after_three _ "s1" _ _).
  - unfold after_three. repeat constructor.
  - vm_compute. reflexivity.
Defined.

(** C6 (as the code has it): a session created by [start_viva] has
    [status = "active"], [current_score = 50] and [question_count = 1], the
    opening question counting as the first one, and its transcript is the
    single interviewer message holding the text obtained from the language
    model. *)
Theorem start_viva_session (env : Env) (db : gmap string SessionData)
    (request : VivaStartRequest) (q : string) :
  GEMINI_API_KEY env = true → GROQ_API_KEY env = true → VivaAgent_init env = Ok () →
  generate_initial_question env (req_module_title request)
    (req_module_description request) (req_user_goal request) = Ok q →
  ∃ (resp : VivaStartResponse) (s : SessionData),
    start_viva env db request = (Ok resp, <[uuid4 env := s]> db)
    ∧ start_session_id resp = uuid4 env
    ∧ session_id s = uuid4 env
    ∧ module_id s = req_module_id request
    ∧ status s = "active"
    ∧ current_score s = 50
    ∧ question_count s = 1
    ∧ transcript s = [mkMessage "interviewer" q (utcnow env 0)].
Proof.
  intros Hg Hq Hagent Hgen.
  destruct (start_viva_outcome env db request)
    as [[e He]|(resp & q0 & Hq0 & Hok & Hsid)].
  - exfalso. unfold start_viva, start_viva_try, check_api_keys in He.
    rewrite Hg, Hq, Hagent, Hgen in He. cbn [negb mbind result_bind] in He.
    destruct (PyStr.split_once "?" q) as [before [after|]]; discriminate.
  - rewrite Hgen in Hq0. injection Hq0 as <-.
    eexists resp, _. split; [exact Hok|]. split_and!; done.
Qed.

Lemma start_viva_session_witness :
  ∃ (resp : VivaStartResponse) (s : SessionData),
    start_viva (viva_env 0) ∅ start_request = (Ok resp, <["s1" := s]> ∅)
    ∧ status s = "active" ∧ current_score s = 50 ∧ question_count s = 1.
Proof.
  destruct (start_viva_session (viva_env 0) ∅ start_request
              "Hi! Ready? What is Git Basics for" eq_refl eq_refl eq_refl eq_refl)
    as (resp & s & Hrun & _ & _ & _ & Hst & Hsc & Hqc & _).
  exists resp, s. split; [exact Hrun|]. split; [exact Hst|]. split; [exact Hsc|exact Hqc].
Defined.

(** C6, as stated, fails: the session stored by [start_viva] has
    [question_count = 1], not 0. *)
Lemma start_viva_counts_first_question :
  ∃ s, started !! "s1" = Some s
       ∧ status s = "active"
       ∧ current_score s = 50
       ∧ question_count s = 1
       ∧ question_count s ≠ 0.
Proof.
  eexists. split; [vm_compute; reflexivity|]. simpl. split_and!; done.
Qed.



End VivaClaims.

(** ** The text viva *)

Section ChatFacts.
Import Chat Spec.

Lemma sum_foldl (a : Z) (xs : list Z) : foldl Z.add a xs = a + sum xs.
Proof.
  unfold sum. revert a. induction xs as [|x xs IH]; intros a; simpl; [lia|].
  rewrite (IH (a + x)), (IH (0 + x)). lia.
Qed.



(** The session after a turn for which the language model returned
    [score_update]. *)
Lemma viva_chat_turn (env : Env) (sessions : gmap string ChatSession)
    (interaction : VivaInteraction) (rt : string) (upd : Z) :
  let sid := session_id interaction in
  let old := current_session sessions sid in
  get_interviewer_response env
    (history old ++ [mkChatMessage "user" (user_text interaction)])
    (user_text interaction) (module_topic interaction) (target_role interaction)
  = Ok (rt, upd) →
  ∃ s' : ChatSession,
    snd (viva_chat env sessions interaction) = <[sid := s']> sessions
    ∧ scores s' = (if decide (0 ≤ upd) then scores old ++ [upd] else scores old)
    ∧ question_count s'
      = (if decide (0 ≤ upd) then question_count old + 1 else question_count old)
    ∧ (∀ resp, fst (viva_chat env sessions interaction) = Ok resp →
         cumulative_score resp
         = (if decide (0 < length (scores s'))%nat then int_mean (scores s') else 0)
         ∧ score resp = (if decide (0 ≤ upd) then upd else 0)
         ∧ resp_question_count resp = question_count s'
         ∧ is_complete resp = bool_decide (5 ≤ question_count s'))
    ∧ ((∀ sc topic, ∃ fb, generate_final_feedback env sc topic = Ok fb) →
       ∃ resp, fst (viva_chat env sessions interaction) = Ok resp).
Proof.
  intros sid old Hgen. unfold viva_chat. fold sid. fold (current_session sessions sid).
  fold old. cbn [append_history history]. rewrite Hgen.
  destruct (split_response rt) as [reply next_question].
  set (s' := record_score _ upd _).
  exists s'.
  assert (Hscores : scores s' = (if decide (0 ≤ upd) then scores old ++ [upd] else scores old)).
  { subst s'. unfold record_score. by case_decide. }
  assert (Hqc : question_count s'
      = (if decide (0 ≤ upd) then question_count old + 1 else question_count old)).
  { subst s'. unfold record_score. by case_decide. }
  destruct (bool_decide (5 ≤ question_count s')) eqn:Hcomplete.
  - destruct (generate_final_feedback env _ (module_topic interaction)) as [fb|e] eqn:Hfb;
      cbn [fst snd]; rewrite insert_insert_eq.
    + split_and!; try done; [|eauto].
      intros resp [= <-]. done.
    + split_and!; try done.
      intros Htotal. match type of Hfb with
      | generate_final_feedback env ?a ?b = _ =>
          destruct (Htotal a b) as [fb Hfb']; rewrite Hfb' in Hfb
      end. discriminate.
  - cbn [fst snd]. rewrite insert_insert_eq. split_and!; try done; [|eauto].
    intros resp [= <-]. done.
Qed.



End ChatFacts.

Section ChatClaims.
Import Chat Spec Examples.



(** C7 (as the code has it): in [/viva/chat] the counter and the recorded
    scores change exactly on a graded turn: a score update of 0 or more adds
    one to [question_count] and appends the score, a negative one (the skip
    signal -1) changes neither.  In [/viva/interact] there is no skip
    signal: every turn that completes adds one to [question_count] and
    applies the update to the score, an update of -1 included. *)
Theorem question_count_per_turn :
  (∀ (env : Env) (sessions : gmap string ChatSession) (interaction : VivaInteraction)
     (rt : string) (upd : Z),
     get_interviewer_response env
       (history (current_session sessions (session_id interaction))
          ++ [mkChatMessage "user" (user_text interaction)])
       (user_text interaction) (module_topic interaction) (target_role interaction)
     = Ok (rt, upd) →
     ∃ s' : ChatSession,
       snd (viva_chat env sessions interaction) !! session_id interaction = Some s'
       ∧ (0 ≤ upd →
          question_count s'
          = question_count (current_session sessions (session_id interaction)) + 1
          ∧ scores s'
            = scores (current_session sessions (session_id interaction)) ++ [upd])
       ∧ (upd < 0 →
          question_count s'
          = question_count (current_session sessions (session_id interaction))
          ∧ scores s' = scores (current_session sessions (session_id interaction))))
  ∧ (∀ (env : Viva.Env) (db : gmap string Viva.SessionData) (sid : string)
       (user_audio user_text : option string) (s : Viva.SessionData)
       (user_input rt : string) (upd : Z),
       Viva.GEMINI_API_KEY env = true → Viva.GROQ_API_KEY env = true →
       Viva.VivaAgent_init env = Ok () →
       db !! sid = Some s → Viva.status s = "active" →
       Viva.resolve_user_input env user_audio user_text = Ok user_input →
       Viva.generate_viva_response env
         (Viva.transcript s ++ [Viva.mkMessage "user" user_input (Viva.utcnow env 0)])
         user_input ("Module: " +:+ Viva.module_title s) = Ok (rt, upd) →
       (∀ sc p ti tr, ∃ fb, Viva.generate_final_feedback env sc p ti tr = Ok fb) →
       ∃ (resp : Viva.VivaInteractResponse) (s' : Viva.SessionData),
         Viva.interact_viva env db sid user_audio user_text = (Ok resp, <[sid := s']> db)
         ∧ Viva.question_count s' = Viva.question_count s + 1
         ∧ Viva.current_score s' = clamp_score (Viva.current_score s + upd)).
Proof.
  split.
  - intros env sessions interaction rt upd Hgen.
    destruct (viva_chat_turn env sessions interaction rt upd Hgen)
      as (s' & Hsnd & Hsc & Hqc & _).
    exists s'. rewrite Hsnd, lookup_insert_eq. split; [done|].
    split; intros Hupd.
    + rewrite decide_True in Hsc by done. rewrite decide_True in Hqc by done. done.
    + rewrite decide_False in Hsc by lia. rewrite decide_False in Hqc by lia. done.
  - intros env db sid user_audio user_text s user_input rt upd
      Hg Hq Hagent Hs Hact Hin Hgen Hfb.
    destruct (interact_viva_turn env db sid user_audio user_text s user_input rt upd
                Hg Hq Hagent Hs Hact Hin Hgen Hfb)
      as (resp & s' & Hrun & Hsc & Hqc & _).
    by exists resp, s'.
Qed.

Lemma question_count_per_turn_witness :
  ∃ s' : ChatSession,
    snd (viva_chat (chat_env (-1)) two_graded (chat_turn "continue")) !! "c1" = Some s'
    ∧ question_count s' = 2
    ∧ scores s' = [80; 75].
Proof.
  edestruct (proj1 question_count_per_turn (chat_env (-1)) two_graded (chat_turn "continue")
               "Correct. What is a branch?" (-1))
    as (s' & Hs' & _ & Hskip).
  - reflexivity.
  - exists s'. split; [exact Hs'|].
    destruct Hskip as [Hqc Hsc]; [lia|].
    split; [rewrite Hqc; vm_compute; reflexivity|rewrite Hsc; vm_compute; reflexivity].
Defined.

(** C7, as stated, fails for [/viva/interact]: with a score update of -1
    the counter goes from 1 to 2 and the score from 50 to 49. *)
Lemma interact_counts_every_turn :
  ∃ (s s' : Viva.SessionData),
    started !! "s1" = Some s
    ∧ snd (Viva.interact_viva (viva_env (-1)) started "s1" None (Some "continue")) !! "s1"
      = Some s'
    ∧ Viva.question_count s = 1 ∧ Viva.question_count s' = 2
    ∧ Viva.current_score s = 50 ∧ Viva.current_score s' = 49
    ∧ ¬ (Viva.question_count s' = Viva.question_count s
         ∧ Viva.current_score s' = Viva.current_score s).
Proof.
  eexists _, _. split; [vm_compute; reflexivity|].
  split; [vm_compute; reflexivity|].
  simpl. split_and!; try reflexivity. intros [Hq _]. discriminate Hq.
Qed.

End ChatClaims.

(** * Further properties *)

(** ** The allocator: errors, days and minutes *)

Section PlannerFacts.
Import Allocator Spec PlannerSpec.











End PlannerFacts.

Section PlannerProperties.
Import Allocator Spec PlannerSpec Examples.









End PlannerProperties.

(** ** The replanner: composition and failures *)

Section ReplanProperties.
Import Replanner Spec Examples PlannerExamples.

Lemma weekday_getitem (l : string) :
  l ∈ days_of_week → ∃ i, 0 ≤ i < 7 ∧ l = getitem days_of_week i.
Proof.
  intros Hl. unfold days_of_week in Hl.
  repeat (apply elem_of_cons in Hl as [->|Hl];
          [first [by exists 0|by exists 1|by exists 2|by exists 3
                 |by exists 4|by exists 5|by exists 6]|]).
  by apply elem_of_nil in Hl.
Qed.

Lemma advance_label_add (a b : Z) (l : string) :
  l ∈ days_of_week → advance_label b (advance_label a l) = advance_label (a + b) l.
Proof.
  intros Hl. destruct (weekday_getitem l Hl) as (i & Hi & ->).
  rewrite !advance_label_weekday by (done || by apply Z.mod_pos_bound).
  f_equal. rewrite Zplus_mod_idemp_l. f_equal. lia.
Qed.

Lemma advance_label_week (k : Z) (l : string) :
  l ∈ days_of_week → advance_label (7 * k) l = l.
Proof.
  intros Hl. destruct (weekday_getitem l Hl) as (i & Hi & ->).
  rewrite advance_label_weekday by done. f_equal.
  rewrite Z.mul_comm, Z.mod_add by done. by apply Z.mod_small.
Qed.

Lemma shift_slot_add (a b : Z) (s : TimeSlot) :
  day s ∈ days_of_week → shift_slot b (shift_slot a s) = shift_slot (a + b) s.
Proof. intros Hs. unfold shift_slot. simpl. by rewrite advance_label_add. Qed.

Lemma calendar_slots_weekdays (h : store) (cal : list ref) (slots : list TimeSlot) :
  calendar_slots h cal slots → Forall (λ s, day s ∈ days_of_week) slots.
Proof. induction 1 as [|r s cal slots [_ Hd] _ IH]; constructor; done. Qed.

Lemma calendar_slots_grow (h h' : store) (cal : list ref) (slots : list TimeSlot) :
  calendar_slots h cal slots → calendar_slots (h ++ h') cal slots.
Proof.
  intros Hcal. eapply Forall2_impl; [exact Hcal|]. intros r s [Hr Hd].
  split; [by apply lookup_app_l_Some|done].
Qed.

(** The calendar returned by [_insert_and_shift_calendar], as slots. *)
Lemma insert_and_shift_slots (k : Z) (h : store) (cal : list ref) (slots : list TimeSlot)
    (new_slot : ref) (v : TimeSlot) :
  calendar_slots h cal slots → h !! new_slot = Some v → day v ∈ days_of_week →
  ∃ h' cal',
    _insert_and_shift_calendar h cal new_slot k = Ok (h', cal')
    ∧ h `prefix_of` h'
    ∧ length cal' = S (length cal)
    ∧ calendar_slots h' cal' (v :: (shift_slot k <$> slots)).
Proof.
  intros Hcal Hv Hd. rewrite (insert_and_shift_ok k h cal slots new_slot Hcal).
  eexists _, _. split; [reflexivity|]. split; [by apply prefix_app_r|]. split.
  - simpl. rewrite length_seq. f_equal. symmetry. by eapply Forall2_length.
  - constructor; [split; [by apply lookup_app_l_Some|done]|].
    pose proof (new_calendar_slots h (shift_slot k <$> slots)) as Hnew.
    rewrite length_fmap in Hnew. apply Hnew.
    apply Forall_fmap. eapply Forall_impl; [by eapply calendar_slots_weekdays|].
    intros s Hs. by apply shift_slot_weekday.
Qed.

(** X4: two calls of [_insert_and_shift_calendar] in a row add up: the
    slots of the original calendar end up shifted by the sum of the two
    shifts (modulo 7), the slot inserted first is shifted by the second
    shift only, and a total shift of a multiple of 7 days gives every
    label back. *)
Theorem insert_and_shift_twice (a b : Z) (h : store) (cal : list ref)
    (slots : list TimeSlot) (new1 : ref) (v1 : TimeSlot) :
  calendar_slots h cal slots → h !! new1 = Some v1 → day v1 ∈ days_of_week →
  ∃ h1 cal1,
    _insert_and_shift_calendar h cal new1 a = Ok (h1, cal1)
    ∧ ∀ (new2 : ref) (v2 : TimeSlot),
        h1 !! new2 = Some v2 → day v2 ∈ days_of_week →
        ∃ h2 cal2,
          _insert_and_shift_calendar h1 cal1 new2 b = Ok (h2, cal2)
          ∧ length cal2 = S (S (length cal))
          ∧ calendar_slots h2 cal2
              (v2 :: shift_slot b v1 :: (shift_slot (a + b) <$> slots))
          ∧ (∀ k, a + b = 7 * k → (shift_slot (a + b) <$> slots) = slots).
Proof.
  intros Hcal Hv1 Hd1.
  destruct (insert_and_shift_slots a h cal slots new1 v1 Hcal Hv1 Hd1)
    as (h1 & cal1 & Hrun1 & _ & Hlen1 & Hcal1).
  exists h1, cal1. split; [done|]. intros new2 v2 Hv2 Hd2.
  destruct (insert_and_shift_slots b h1 cal1 _ new2 v2 Hcal1 Hv2 Hd2)
    as (h2 & cal2 & Hrun2 & _ & Hlen2 & Hcal2).
  exists h2, cal2. split; [done|]. split; [by rewrite Hlen2, Hlen1|].
  pose proof (calendar_slots_weekdays _ _ _ Hcal) as Hdays.
  split.
  - rewrite fmap_cons, <- list_fmap_compose in Hcal2.
    erewrite (list_fmap_ext _ (shift_slot (a + b)) slots) in Hcal2; [exact Hcal2|].
    intros i s Hs. simpl. apply shift_slot_add.
    exact (Forall_lookup_1 (λ s, day s ∈ days_of_week) _ _ _ Hdays Hs).
  - intros k Hk. rewrite Hk.
    rewrite <- (list_fmap_id slots) at 2. apply list_fmap_ext. intros i s Hs.
    unfold shift_slot. rewrite advance_label_week; [by destruct s|].
    exact (Forall_lookup_1 (λ s, day s ∈ days_of_week) _ _ _ Hdays Hs).
Qed.

Lemma insert_and_shift_twice_witness :
  ∃ h1 cal1,
    _insert_and_shift_calendar sample_store [1%nat] 0%nat 3 = Ok (h1, cal1).
Proof.
  assert (Hcal : calendar_slots sample_store [1%nat]
                   [mkTimeSlot "Monday" "18:00" 120 learning]).
  { repeat constructor. }
  assert (Hd : day (mkTimeSlot "Sunday" "18:00" 30 viva) ∈ days_of_week).
  { repeat constructor. }
  destruct (insert_and_shift_twice 3 4 sample_store [1%nat] _ 0%nat _ Hcal eq_refl Hd)
    as (h1 & cal1 & Hrun & _).
  exists h1, cal1. exact Hrun.
Defined.

End ReplanProperties.

Section ReplanOutcomes.
Import Replanner Spec Examples PlannerExamples.

(** The outcome of a replanning whose language model answers, on a
    calendar of weekday slots. *)
Lemma replan_returns (env : Env) (h : store) (sched : UserSchedule) (mid : string)
    (slots : list TimeSlot) :
  (∃ m, m ∈ modules sched ∧ id m = mid) →
  (∀ m, ∃ focus, _generate_remedial_focus env m = Ok focus) →
  calendar_slots h (calendar sched) slots →
  ∃ (i : nat) (m : LearningModuleScheduler),
    modules sched !! i = Some m ∧ id m = mid
    ∧ replan_after_failure env h sched mid
      = mkOutcome None
          (h ++ remedial_slot (today env) :: (shift_slot 1 <$> slots))
          (set_calendar (set_modules sched (<[i := fail_module m]> (modules sched)))
             (length h :: seq (S (length h)) (length slots))).
Proof.
  intros Hpresent Horacle Hcal.
  destruct (find_and_fail_spec _ _ Hpresent) as (i & m & Hi & Hid & _ & Hfind).
  exists i, m. split; [done|]. split; [done|].
  unfold replan_after_failure. rewrite Hfind.
  destruct (Horacle (fail_module m)) as [focus ->].
  unfold new_TimeSlot. cbn [calendar set_modules].
  pose proof (insert_and_shift_ok 1 (h ++ [remedial_slot (today env)])
                (calendar sched) slots (length h)) as Hins.
  unfold remedial_slot in *. rewrite Hins.
  - rewrite length_app, <- app_assoc. simpl.
    by replace (length h + 1)%nat with (S (length h)) by lia.
  - by apply calendar_slots_grow.
Qed.





(** X6: replanning twice shifts twice.  After two calls that return, the
    calendar is: the second remedial slot, the first remedial slot moved by
    one day, then the original slots moved by two days; it has two entries
    more than before, and both modules are marked failed. *)
Theorem replan_twice (env1 env2 : Env) (h : store) (sched : UserSchedule)
    (mid1 mid2 : string) (slots : list TimeSlot) :
  (∃ m, m ∈ modules sched ∧ id m = mid1) →
  (∃ m, m ∈ modules sched ∧ id m = mid2) →
  (∀ m, ∃ focus, _generate_remedial_focus env1 m = Ok focus) →
  (∀ m, ∃ focus, _generate_remedial_focus env2 m = Ok focus) →
  calendar_slots h (calendar sched) slots →
  let out1 := replan_after_failure env1 h sched mid1 in
  let out2 := replan_after_failure env2 (store_after out1) (schedule_after out1) mid2 in
  raised out1 = None ∧ raised out2 = None
  ∧ length (calendar (schedule_after out2)) = S (S (length (calendar sched)))
  ∧ calendar_slots (store_after out2) (calendar (schedule_after out2))
      (remedial_slot (today env2)
       :: shift_slot 1 (remedial_slot (today env1))
       :: (shift_slot 2 <$> slots))
  ∧ (∀ mid, mid = mid1 ∨ mid = mid2 →
       ∃ m', m' ∈ modules (schedule_after out2) ∧ id m' = mid ∧ status m' = failed).
Proof.
  intros Hp1 Hp2 Ho1 Ho2 Hcal out1 out2.
  destruct (replan_returns env1 h sched mid1 slots Hp1 Ho1 Hcal)
    as (i1 & m1 & Hi1 & Hid1 & Hrun1).
  assert (Hcal1 : calendar_slots (store_after out1) (calendar (schedule_after out1))
                    (remedial_slot (today env1) :: (shift_slot 1 <$> slots))).
  { subst out1. rewrite Hrun1. cbn [store_after schedule_after calendar set_calendar].
    pose proof (new_calendar_slots h (remedial_slot (today env1) :: (shift_slot 1 <$> slots)))
      as Hnew.
    cbn [length seq] in Hnew. rewrite length_fmap in Hnew. apply Hnew.
    constructor; [apply day_label_weekday|].
    apply Forall_fmap. eapply Forall_impl; [by eapply calendar_slots_weekdays|].
    intros s Hs. by apply shift_slot_weekday. }
  assert (Hp2' : ∃ m, m ∈ modules (schedule_after out1) ∧ id m = mid2).
  { subst out1. rewrite Hrun1. cbn [schedule_after modules set_calendar set_modules].
    destruct Hp2 as (m & Hm & Hid).
    apply list_elem_of_lookup in Hm as [j Hj].
    destruct (decide (j = i1)) as [->|Hne].
    - exists (fail_module m1). split.
      + apply list_elem_of_lookup. exists i1. apply list_lookup_insert_eq.
        by eapply lookup_lt_Some.
      + rewrite Hi1 in Hj. injection Hj as <-. done.
    - exists m. split; [|done]. apply list_elem_of_lookup. exists j.
      by rewrite list_lookup_insert_ne. }
  destruct (replan_returns env2 _ _ mid2 _ Hp2' Ho2 Hcal1)
    as (i2 & m2 & Hi2 & Hid2 & Hrun2).
  fold out2 in Hrun2.
  assert (Hlen : length (calendar sched) = length slots) by (by eapply Forall2_length).
  split; [by subst out1; rewrite Hrun1|]. split; [by rewrite Hrun2|].
  split; [|split].
  - rewrite Hrun2. cbn [schedule_after calendar set_calendar length].
    rewrite length_seq. cbn [length]. by rewrite length_fmap, Hlen.
  - rewrite Hrun2. cbn [store_after schedule_after calendar set_calendar].
    pose proof (new_calendar_slots (store_after out1)
      (remedial_slot (today env2)
       :: shift_slot 1 (remedial_slot (today env1)) :: (shift_slot 2 <$> slots))) as Hnew.
    cbn [length seq] in Hnew. rewrite length_fmap in Hnew.
    assert (Heq : (shift_slot 1 <$> (remedial_slot (today env1) :: (shift_slot 1 <$> slots)))
                  = shift_slot 1 (remedial_slot (today env1)) :: (shift_slot 2 <$> slots)).
    { rewrite fmap_cons, <- list_fmap_compose. f_equal.
      apply list_fmap_ext. intros i s Hs. simpl.
      change 2 with (1 + 1). apply shift_slot_add.
      exact (Forall_lookup_1 (λ s, day s ∈ days_of_week) _ _ _
               (calendar_slots_weekdays _ _ _ Hcal) Hs). }
    rewrite Heq. cbn [length]. rewrite length_fmap.
    apply Hnew. constructor; [apply day_label_weekday|].
    constructor; [apply shift_slot_weekday, day_label_weekday|].
    apply Forall_fmap. eapply Forall_impl; [by eapply calendar_slots_weekdays|].
    intros s Hs. by apply shift_slot_weekday.
  - intros mid [->| ->].
    + subst out1. rewrite Hrun1 in Hrun2, Hi2.
      cbn [schedule_after modules set_calendar set_modules] in Hrun2, Hi2.
      rewrite Hrun2. cbn [schedule_after modules set_calendar set_modules].
      assert (Hlt : (i1 < length (modules sched))%nat) by (by eapply lookup_lt_Some).
      destruct (decide (i2 = i1)) as [->|Hne].
      * rewrite list_lookup_insert_eq in Hi2 by done. injection Hi2 as <-.
        exists (fail_module (fail_module m1)). split; [|done].
        apply list_elem_of_lookup. exists i1. apply list_lookup_insert_eq.
        by rewrite length_insert.
      * exists (fail_module m1). split; [|done].
        apply list_elem_of_lookup. exists i1.
        rewrite list_lookup_insert_ne by done. by apply list_lookup_insert_eq.
    + exists (fail_module m2). rewrite Hrun2.
      cbn [schedule_after modules set_calendar set_modules]. split; [|done].
      apply list_elem_of_lookup. exists i2. apply list_lookup_insert_eq.
      by eapply lookup_lt_Some.
Qed.

Lemma replan_twice_witness :
  let out1 := replan_after_failure sample_replan_env sample_store sample_schedule "M1" in
  let out2 := replan_after_failure sample_replan_env (store_after out1)
                (schedule_after out1) "M1" in
  raised out2 = None ∧ length (calendar (schedule_after out2)) = 4%nat.
Proof.
  assert (Hpresent : ∃ m, m ∈ modules sample_schedule ∧ id m = "M1").
  { exists (mkModule "M1" "M1" [] 10 unlocked false). split; [left|reflexivity]. }
  assert (Horacle :
    ∀ m, ∃ focus, _generate_remedial_focus sample_replan_env m = Ok focus).
  { intros m. exists "Review the basics.". reflexivity. }
  assert (Hcal : calendar_slots sample_store (calendar sample_schedule) sample_store).
  { repeat constructor. }
  destruct (replan_twice sample_replan_env sample_replan_env sample_store sample_schedule
              "M1" "M1" sample_store Hpresent Hpresent Horacle Horacle Hcal)
    as (_ & H2 & Hlen & _).
  cbv zeta. split; [exact H2|exact Hlen].
Defined.

End ReplanOutcomes.

(** ** [generate_initial_roadmap] *)

Section RoadmapProperties.
Import Replanner Spec Examples PlannerExamples.





End RoadmapProperties.

(** ** The spoken viva: transcript, isolation, errors *)

Section VivaProperties.
Import Viva Spec VivaSpec VivaStore Examples VivaExamples2.

(** The session stored by a turn that returns, field by field. *)
Lemma interact_viva_stored (env : Env) (db db' : gmap string SessionData) (sid : string)
    (user_audio user_text : option string) (resp : VivaInteractResponse) :
  interact_viva env db sid user_audio user_text = (Ok resp, db') →
  ∃ (s : SessionData) (user_input rt : string) (upd : Z) (final : list VivaMessage),
    db !! sid = Some s
    ∧ status s = "active"
    ∧ resolve_user_input env user_audio user_text = Ok user_input
    ∧ generate_viva_response env
        (transcript s ++ [mkMessage "user" user_input (utcnow env 0)]) user_input
        ("Module: " +:+ module_title s) = Ok (rt, upd)
    ∧ (if decide (5 ≤ question_count s + 1)
       then ∃ fb, final = [mkMessage "interviewer" fb (utcnow env 2)]
       else final = [])
    ∧ db' = <[sid :=
               mkSession (session_id s) (module_id s) (module_title s)
                 (transcript s
                    ++ [mkMessage "user" user_input (utcnow env 0);
                        mkMessage "interviewer" rt (utcnow env 1)] ++ final)
                 (clamp_score (current_score s + upd))
                 (status_after (question_count s + 1) (clamp_score (current_score s + upd)))
                 (question_count s + 1) (created_at s) (utcnow env 3)]> db.
Proof.
  intros Hrun. apply interact_viva_ok_inv in Hrun. revert Hrun.
  unfold interact_viva_try, get_session.
  destruct (check_api_keys env) as [[]|e]; cbn [mbind result_bind]; [|discriminate].
  destruct (db !! sid) as [s|] eqn:Hs; [|discriminate].
  case_decide as Hactive; [discriminate|].
  destruct (VivaAgent_init env) as [[]|e]; cbn [mbind result_bind]; [|discriminate].
  destruct (resolve_user_input env user_audio user_text) as [user_input|e] eqn:Hin;
    cbn [mbind result_bind]; [|discriminate].
  destruct (generate_viva_response env _ _ _) as [[rt upd]|e] eqn:Hgen;
    cbn [mbind result_bind]; [|discriminate].
  unfold conclude, update_session.
  cbn [question_count set_question_count append_message update_score set_current_score
       current_score].
  case_decide as Hq.
  - destruct (generate_final_feedback env _ _ _ _) as [fb|e]; cbn [mbind result_bind];
      [|discriminate].
    rewrite Hs. cbn [mbind result_bind]. intros [= <- <-].
    exists s, user_input, rt, upd, [mkMessage "interviewer" fb (utcnow env 2)].
    split_and!; try done.
    + rewrite decide_True by done. eauto.
    + f_equal. unfold status_after, clamp_score, set_status, append_message. simpl.
      rewrite decide_True by done. rewrite <- !app_assoc. reflexivity.
  - rewrite Hs. cbn [mbind result_bind]. intros [= <- <-].
    exists s, user_input, rt, upd, [].
    split_and!; try done.
    + by rewrite decide_False by done.
    + f_equal. unfold status_after, clamp_score, set_status, append_message. simpl.
      rewrite decide_False by done. rewrite Hactive, <- !app_assoc. reflexivity.
Qed.

End VivaProperties.

Section VivaShape.
Import Viva Spec VivaSpec VivaStore Examples VivaExamples2.



Lemma count_role_app (r : string) (a b : list VivaMessage) :
  count_role r (a ++ b) = count_role r a + count_role r b.
Proof. unfold count_role. rewrite filter_app, length_app. lia. Qed.

Lemma viva_reachable_shape (db : gmap string SessionData) :
  viva_reachable db → ∀ sid s, db !! sid = Some s → transcript_ok sid s.
Proof.
  induction 1 as [|env db request Hreach IH|env db sid0 a t Hreach IH]; intros sid s Hs.
  - by rewrite lookup_empty in Hs.
  - destruct (start_viva_outcome env db request)
      as [[e He]|(resp & q & _ & Hok & _)].
    + rewrite He in Hs. by eapply IH.
    + rewrite Hok in Hs. cbn [snd] in Hs.
      destruct (decide (uuid4 env = sid)) as [<-|Hne].
      * rewrite lookup_insert_eq in Hs. injection Hs as <-.
        unfold transcript_ok, count_role, concluded_bit. simpl. done.
      * rewrite lookup_insert_ne in Hs by done. by eapply IH.
  - destruct (interact_viva_outcome env db sid0 a t)
      as [[e He]|(resp & db' & Hok)].
    + rewrite He in Hs. by eapply IH.
    + rewrite Hok in Hs. cbn [snd] in Hs.
      destruct (interact_viva_stored _ _ _ _ _ _ _ Hok)
        as (s0 & ui & rt & upd & final & Hs0 & Hact & _ & _ & Hfinal & ->).
      destruct (decide (sid0 = sid)) as [<-|Hne];
        [|rewrite lookup_insert_ne in Hs by done; by eapply IH].
      rewrite lookup_insert_eq in Hs. injection Hs as <-.
      destruct (IH _ _ Hs0) as (Hid & Hu & Hi & Hlen).
      destruct (viva_reachable_ok db Hreach _ _ Hs0) as (_ & Hq0 & Hst0).
      rewrite Hact in Hst0. symmetry in Hst0. apply status_after_active in Hst0.
      unfold concluded_bit in *. rewrite Hact in Hi, Hlen.
      rewrite decide_True in Hi, Hlen by done.
      unfold transcript_ok, concluded_bit. cbn [session_id transcript question_count status].
      rewrite !count_role_app, !length_app, Hu, Hi.
      unfold status_after. destruct (decide (5 ≤ question_count s0 + 1)) as [Hq|Hq].
      * destruct Hfinal as [fb ->].
        rewrite decide_False by (by case_bool_decide).
        unfold count_role. simpl.
        split_and!; first [done|lia].
      * subst final. rewrite decide_True by done.
        unfold count_role. simpl.
        split_and!; first [done|lia].
Qed.

(** X9: every session stored by the two handlers is stored under its own
    id, and its transcript holds one answer per counted question after the
    first and one interviewer entry per question, plus one entry of final
    feedback once the session is concluded: 2 * question_count - 1 entries
    while active, 10 once concluded.  [get_viva_session] returns that
    session. *)
Theorem transcript_shape (db : gmap string SessionData) (sid : string) (s : SessionData) :
  viva_reachable db → db !! sid = Some s →
  get_viva_session db sid = Ok s
  ∧ transcript_ok sid s
  ∧ (status s ≠ "active" → length (transcript s) = 10%nat).
Proof.
  intros Hreach Hs.
  pose proof (viva_reachable_shape db Hreach sid s Hs) as Hshape.
  split; [unfold get_viva_session, get_session; by rewrite Hs|]. split; [done|].
  intros Hna. destruct Hshape as (_ & _ & _ & Hlen).
  destruct (viva_reachable_ok db Hreach sid s Hs) as (_ & Hq & Hst).
  assert (question_count s = 5).
  { destruct (decide (question_count s < 5)) as [Hlt|Hge]; [|lia].
    pose proof (proj2 (status_after_active _ (current_score s)) Hlt). congruence. }
  unfold concluded_bit in Hlen. rewrite decide_False in Hlen by done. lia.
Qed.

Lemma transcript_shape_witness :
  viva_reachable after_three
  ∧ ∃ s, after_three !! "s1" = Some s ∧ get_viva_session after_three "s1" = Ok s
         ∧ length (transcript s) = 7%nat.
Proof.
  assert (Hreach : viva_reachable after_three).
  { unfold after_three. repeat constructor. }
  split; [exact Hreach|]. eexists.
  split; [vm_compute; reflexivity|].
  split; [|reflexivity].
  refine (proj1 (transcript_shape after_three "s1" _ Hreach _)).
  vm_compute. reflexivity.
Defined.

End VivaShape.

Section VivaErrors.
Import Viva Spec VivaSpec VivaStore Examples VivaExamples2.



End VivaErrors.

(** ** The spoken viva with the agent of agents/viva_agent_gemini.py *)

Section AgentProperties.
Import Viva Spec VivaSpec VivaStore Examples VivaExamples2.

Lemma agent_response_range (r : GeminiAgent.Reply) :
  -10 ≤ (GeminiAgent.generate_viva_response r).2 ≤ 10.
Proof. destruct r as [| |rt [u|]]; cbn; lia. Qed.

Lemma agent_response_silent (m : GeminiAgent.Model) (h : list VivaMessage) (u c : string) :
  silent m → (GeminiAgent.generate_viva_response (GeminiAgent.reply m h u c)).2 = 0.
Proof. intros Hm. by destruct (Hm h u c) as [-> | ->]. Qed.

Lemma agent_reachable_viva (P : GeminiAgent.Model → Prop) (db : gmap string SessionData) :
  agent_reachable P db → viva_reachable db.
Proof. induction 1; by constructor. Qed.

(** A turn that returns, with the agent in place: the stored score moved by
    the agent's clamped update. *)
Lemma agent_interact_stored (m : GeminiAgent.Model) (u : string)
    (stt : string → result string) (clock : nat → string)
    (db db' : gmap string SessionData) (sid : string)
    (user_audio user_text : option string) (resp : VivaInteractResponse) :
  interact_viva (GeminiAgent.env m u stt clock) db sid user_audio user_text = (Ok resp, db') →
  ∃ (s s' : SessionData) (upd : Z),
    db !! sid = Some s ∧ status s = "active" ∧ db' = <[sid := s']> db
    ∧ -10 ≤ upd ≤ 10 ∧ (silent m → upd = 0)
    ∧ current_score s' = clamp_score (current_score s + upd)
    ∧ question_count s' = question_count s + 1.
Proof.
  intros Hrun.
  destruct (interact_viva_stored _ _ _ _ _ _ _ Hrun)
    as (s & ui & rt & upd & final & Hs & Hact & _ & Hgen & _ & ->).
  cbn [GeminiAgent.env generate_viva_response] in Hgen. injection Hgen as Hgen.
  pose proof (agent_response_range
    (GeminiAgent.reply m (transcript s ++ [mkMessage "user" ui (clock 0%nat)]) ui
       ("Module: " +:+ module_title s))) as Hrange.
  eexists s, _, upd. split_and!; try done.
  - rewrite Hgen in Hrange. cbn in Hrange. lia.
  - rewrite Hgen in Hrange. cbn in Hrange. lia.
  - intros Hm.
    pose proof (agent_response_silent m
      (transcript s ++ [mkMessage "user" ui (clock 0%nat)]) ui
      ("Module: " +:+ module_title s) Hm) as H0.
    by rewrite Hgen in H0.
Qed.

Lemma agent_reachable_inv (P : GeminiAgent.Model → Prop) (I : SessionData → Prop) :
  (∀ sid mid title q now, I (mkSession sid mid title [mkMessage "interviewer" q now]
                               50 "active" 1 now now)) →
  (∀ m s s' upd, P m → I s → session_ok s → status s = "active" →
     -10 ≤ upd ≤ 10 → (silent m → upd = 0) →
     current_score s' = clamp_score (current_score s + upd) →
     question_count s' = question_count s + 1 → session_ok s' → I s') →
  ∀ db, agent_reachable P db → ∀ sid s, db !! sid = Some s → I s.
Proof.
  intros Hstart Hstep db Hreach.
  induction Hreach as [|m u stt clock db request Hm Hreach IH
                       |m u stt clock db sid0 a t Hm Hreach IH]; intros sid s Hs.
  - by rewrite lookup_empty in Hs.
  - destruct (start_viva_outcome (GeminiAgent.env m u stt clock) db request)
      as [[e He]|(resp & q & _ & Hok & _)].
    + rewrite He in Hs. by eapply IH.
    + rewrite Hok in Hs. cbn [snd] in Hs.
      destruct (decide (uuid4 (GeminiAgent.env m u stt clock) = sid)) as [<-|Hne].
      * rewrite lookup_insert_eq in Hs. injection Hs as <-. apply Hstart.
      * rewrite lookup_insert_ne in Hs by done. by eapply IH.
  - pose proof (agent_reachable_interact P m u stt clock db sid0 a t Hm Hreach) as Hnext.
    apply agent_reachable_viva in Hnext.
    pose proof (viva_reachable_ok _ Hnext sid s Hs) as Hok'.
    destruct (interact_viva_outcome (GeminiAgent.env m u stt clock) db sid0 a t)
      as [[e He]|(resp & db' & Hok)].
    + rewrite He in Hs. by eapply IH.
    + rewrite Hok in Hs. cbn [snd] in Hs.
      destruct (agent_interact_stored _ _ _ _ _ _ _ _ _ _ Hok)
        as (s0 & s' & upd & Hs0 & Hact & -> & Hupd & Hsil & Hsc & Hqc).
      destruct (decide (sid0 = sid)) as [<-|Hne];
        [|rewrite lookup_insert_ne in Hs by done; by eapply IH].
      rewrite lookup_insert_eq in Hs. injection Hs as <-.
      eapply (Hstep m s0 s' upd); eauto.
      eapply viva_reachable_ok; [|exact Hs0]. by eapply agent_reachable_viva.
Qed.

(** X11: with the agent of viva_agent_gemini.py, which clamps each score
    update to [-10, 10], the score of a stored session is never further from
    50 than ten points per answer given; a concluded session therefore has a
    score between 10 and 90, and one that passed gained at least twenty
    points over its four answers. *)
Theorem agent_score_envelope (db : gmap string SessionData) (sid : string) (s : SessionData) :
  agent_reachable (λ _, True) db → db !! sid = Some s →
  score_envelope s
  ∧ (status s ≠ "active" → 10 ≤ current_score s ≤ 90)
  ∧ (status s = "passed" → 70 ≤ current_score s ≤ 90).
Proof.
  intros Hreach Hs.
  assert (Henv : score_envelope s).
  { revert db Hreach sid s Hs. apply agent_reachable_inv.
    - intros. unfold score_envelope. cbn. lia.
    - intros m s0 s' upd _ Henv0 (Hr0 & Hq0 & _) _ Hupd _ Hsc Hqc _.
      unfold score_envelope in *. rewrite Hsc, Hqc. unfold clamp_score. lia. }
  destruct (viva_reachable_ok db (agent_reachable_viva _ _ Hreach) sid s Hs)
    as (Hr & Hq & Hst).
  split; [done|].
  unfold score_envelope in Henv.
  split.
  - intros Hna. lia.
  - intros Hp. rewrite Hp in Hst. unfold status_after in Hst.
    case_decide; [|done]. case_bool_decide; [lia|done].
Qed.

Lemma agent_score_envelope_witness :
  ∃ s, four_turns generous_env !! "s1" = Some s
       ∧ status s = "passed" ∧ 70 ≤ current_score s ≤ 90.
Proof.
  assert (Hreach : agent_reachable (λ _, True) (four_turns generous_env)).
  { unfold four_turns, generous_env.
    do 4 (apply agent_reachable_interact; [exact I|]).
    apply agent_reachable_start; [exact I|]. constructor. }
  eexists. split; [vm_compute; reflexivity|]. split; [reflexivity|].
  refine (proj2 (proj2 (agent_score_envelope (four_turns generous_env) "s1" _ Hreach _)) _).
  - vm_compute. reflexivity.
  - reflexivity.
Defined.


(** X13: a language model that is down costs the learner the exam.  While
    no reply of the model can be read the agent answers with its fixed
    sentences and a score update of 0, and the handler still counts each
    answer as a question: every stored session keeps the score 50, none
    passes, and a session that reached five questions is stored as failed. *)
Theorem model_outage_fails (db : gmap string SessionData) (sid : string) (s : SessionData) :
  agent_reachable silent db → db !! sid = Some s →
  current_score s = 50
  ∧ status s ≠ "passed"
  ∧ (question_count s = 5 → status s = "failed").
Proof.
  intros Hreach Hs.
  assert (H50 : current_score s = 50).
  { revert db Hreach sid s Hs. apply agent_reachable_inv.
    - done.
    - intros m s0 s' upd Hm H0 _ _ _ Hsil Hsc _ _.
      rewrite Hsc, H0, (Hsil Hm). reflexivity. }
  destruct (viva_reachable_ok db (agent_reachable_viva _ _ Hreach) sid s Hs)
    as (_ & _ & Hst).
  rewrite H50 in Hst. rewrite Hst. unfold status_after.
  split; [done|]. split.
  - case_decide; [|done]. by case_bool_decide.
  - intros ->. rewrite decide_True by lia. by case_bool_decide.
Qed.

Lemma model_outage_fails_witness :
  ∃ s, four_turns down_env !! "s1" = Some s
       ∧ question_count s = 5 ∧ current_score s = 50 ∧ status s = "failed".
Proof.
  assert (Hsilent : silent model_down) by (intros h ui c; left; reflexivity).
  assert (Hreach : agent_reachable silent (four_turns down_env)).
  { unfold four_turns, down_env.
    do 4 (apply agent_reachable_interact; [exact Hsilent|]).
    apply agent_reachable_start; [exact Hsilent|]. constructor. }
  eexists. split; [vm_compute; reflexivity|]. split; [reflexivity|].
  match goal with
  | |- current_score ?s = _ ∧ _ =>
      destruct (model_outage_fails (four_turns down_env) "s1" s Hreach)
        as (H50 & _ & Hfail)
  end.
  - vm_compute. reflexivity.
  - split; [exact H50|]. apply Hfail. reflexivity.
Defined.

End AgentProperties.

(** ** The text viva: growth of a session, failures, ungraded turns *)

Section ChatProperties.
Import Chat Spec Examples ChatExamples.

(** The dictionary after a call, in each of its three outcomes. *)
Lemma viva_chat_stored (env : Env) (sessions : gmap string ChatSession)
    (interaction : VivaInteraction) :
  let sid := session_id interaction in
  let old := current_session sessions sid in
  let user := mkChatMessage "user" (user_text interaction) in
  match get_interviewer_response env (history old ++ [user]) (user_text interaction)
          (module_topic interaction) (target_role interaction) with
  | Raise e =>
      viva_chat env sessions interaction
      = (Raise (http_500 e),
         <[sid := mkChatSession (history old ++ [user]) (scores old) (question_count old)]>
           sessions)
  | Ok (rt, upd) =>
      ∃ (answer : ChatMessage),
        let s' := mkChatSession (history old ++ [user; answer])
                    (if decide (0 ≤ upd) then scores old ++ [upd] else scores old)
                    (if decide (0 ≤ upd) then question_count old + 1 else question_count old) in
        let cumulative :=
          if decide (0 < length (scores s'))%nat then int_mean (scores s') else 0 in
        snd (viva_chat env sessions interaction) = <[sid := s']> sessions
        ∧ role answer = "assistant"
        ∧ (if decide (5 ≤ question_count s') then
             match generate_final_feedback env cumulative (module_topic interaction) with
             | Raise e => fst (viva_chat env sessions interaction) = Raise (http_500 e)
             | Ok fb =>
                 ∃ resp, fst (viva_chat env sessions interaction) = Ok resp
                         ∧ is_complete resp = true ∧ final_feedback resp = Some fb
                         ∧ resp_question_count resp = question_count s'
             end
           else ∃ resp, fst (viva_chat env sessions interaction) = Ok resp
                        ∧ is_complete resp = false ∧ final_feedback resp = None
                        ∧ resp_question_count resp = question_count s')
  end.
Proof.
  intros sid old user. unfold viva_chat. fold sid. fold (current_session sessions sid).
  fold old. cbn [append_history history]. fold user.
  destruct (get_interviewer_response env _ _ _ _) as [[rt upd]|e].
  - destruct (split_response rt) as [reply next_question].
    eexists (mkChatMessage "assistant" _).
    unfold record_score, append_history. cbn [history scores question_count].
    destruct (decide (0 ≤ upd)) as [Hupd|Hupd]; cbn [history scores question_count];
      rewrite <- !app_assoc; cbn [app].
    + destruct (decide (5 ≤ question_count old + 1)) as [Hq|Hq].
      * rewrite (bool_decide_eq_true_2 _ Hq).
        destruct (generate_final_feedback env _ _) as [fb|e]; cbn [fst snd];
          rewrite insert_insert_eq; split_and!; try done. eauto.
      * rewrite (bool_decide_eq_false_2 _ Hq). cbn [fst snd].
        rewrite insert_insert_eq; split_and!; try done. eauto.
    + destruct (decide (5 ≤ question_count old)) as [Hq|Hq].
      * rewrite (bool_decide_eq_true_2 _ Hq).
        destruct (generate_final_feedback env _ _) as [fb|e]; cbn [fst snd];
          rewrite insert_insert_eq; split_and!; try done. eauto.
      * rewrite (bool_decide_eq_false_2 _ Hq). cbn [fst snd].
        rewrite insert_insert_eq; split_and!; try done. eauto.
  - reflexivity.
Qed.

(** X14: a call of [viva_chat] always leaves the addressed session stored,
    and no other entry of the dictionary changes.  The history keeps what it
    had and gains the learner's message, then at most the interviewer's; the
    recorded scores keep what they had; the counter goes up by at most one.
    A session that has its five questions is not closed: a further call is
    processed like any other and, when it returns, reports completion with
    a final feedback again. *)
Theorem chat_session_growth (env : Env) (sessions : gmap string ChatSession)
    (interaction : VivaInteraction) :
  let sid := session_id interaction in
  let old := current_session sessions sid in
  ∃ s' : ChatSession,
    snd (viva_chat env sessions interaction) = <[sid := s']> sessions
    ∧ history old ++ [mkChatMessage "user" (user_text interaction)] `prefix_of` history s'
    ∧ (length (history s') ≤ length (history old) + 2)%nat
    ∧ scores old `prefix_of` scores s'
    ∧ question_count old ≤ question_count s' ≤ question_count old + 1
    ∧ (5 ≤ question_count old →
       ∀ resp, fst (viva_chat env sessions interaction) = Ok resp →
         is_complete resp = true ∧ is_Some (final_feedback resp)
         ∧ 5 ≤ resp_question_count resp).
Proof.
  intros sid old.
  pose proof (viva_chat_stored env sessions interaction) as H. cbv zeta in H.
  fold sid in H. fold (current_session sessions sid) in H. fold old in H.
  destruct (get_interviewer_response env _ _ _ _) as [[rt upd]|e].
  - destruct H as (answer & Hsnd & _ & Hfst).
    eexists. split; [exact Hsnd|]. cbn [history scores question_count] in *.
    split_and!.
    + exists [answer]. by rewrite <- app_assoc.
    + rewrite length_app. simpl. lia.
    + destruct (decide (0 ≤ upd)); [by apply prefix_app_r|done].
    + destruct (decide (0 ≤ upd)); lia.
    + destruct (decide (0 ≤ upd)); lia.
    + intros Hq resp Hresp.
      rewrite (decide_True (P := 5 ≤ _)) in Hfst by (destruct (decide (0 ≤ upd)); lia).
      destruct (generate_final_feedback env _ _) as [fb|e].
      * destruct Hfst as (resp' & Hresp' & Hc & Hfb & Hqc).
        rewrite Hresp in Hresp'. injection Hresp' as <-.
        rewrite Hc, Hfb, Hqc. split_and!; [done|eauto|destruct (decide (0 ≤ upd)); lia].
      * rewrite Hresp in Hfst. discriminate.
  - rewrite H. cbn [fst snd]. eexists. split; [reflexivity|].
    cbn [history scores question_count]. split_and!; try done; try lia.
    rewrite length_app. simpl. lia.
Qed.

Lemma chat_session_growth_witness :
  ∃ resp, fst (viva_chat (chat_env 80) (snd (viva_chat (chat_env 80) four_graded
                                               (chat_turn "An answer")))
                 (chat_turn "One more")) = Ok resp
          ∧ is_complete resp = true ∧ 5 ≤ resp_question_count resp.
Proof.
  eexists. split; [vm_compute; reflexivity|].
  destruct (chat_session_growth (chat_env 80)
              (snd (viva_chat (chat_env 80) four_graded (chat_turn "An answer")))
              (chat_turn "One more")) as (s' & _ & _ & _ & _ & _ & H).
  match goal with
  | |- is_complete ?r = _ ∧ _ =>
      destruct (H ltac:(vm_compute; discriminate) r ltac:(vm_compute; reflexivity))
        as (Hc & _ & Hq)
  end.
  split; [exact Hc|exact Hq].
Defined.

(** X15: what a failing call of [viva_chat] leaves behind.  Every failure
    is a 500.  The session is changed in place before the language model is
    asked, so when that call raises the learner's message is in the stored
    history all the same; and when the final feedback of a completing turn
    raises, the grade of that turn and the counter are already stored,
    although the caller saw an error. *)
Theorem chat_failure_keeps_turn (env : Env) (sessions : gmap string ChatSession)
    (interaction : VivaInteraction) :
  let sid := session_id interaction in
  let old := current_session sessions sid in
  let user := mkChatMessage "user" (user_text interaction) in
  (∀ e, fst (viva_chat env sessions interaction) = Raise e →
        ∃ detail, e = HTTPException 500 detail)
  ∧ (∀ e, get_interviewer_response env (history old ++ [user]) (user_text interaction)
            (module_topic interaction) (target_role interaction) = Raise e →
          viva_chat env sessions interaction
          = (Raise (http_500 e),
             <[sid := mkChatSession (history old ++ [user]) (scores old)
                        (question_count old)]> sessions))
  ∧ (∀ rt upd e,
       get_interviewer_response env (history old ++ [user]) (user_text interaction)
         (module_topic interaction) (target_role interaction) = Ok (rt, upd) →
       0 ≤ upd → 4 ≤ question_count old →
       generate_final_feedback env (int_mean (scores old ++ [upd]))
         (module_topic interaction) = Raise e →
       fst (viva_chat env sessions interaction) = Raise (http_500 e)
       ∧ ∃ s', snd (viva_chat env sessions interaction) !! sid = Some s'
               ∧ scores s' = scores old ++ [upd]
               ∧ question_count s' = question_count old + 1).
Proof.
  intros sid old user.
  pose proof (viva_chat_stored env sessions interaction) as H. cbv zeta in H.
  fold sid in H. fold (current_session sessions sid) in H. fold old in H. fold user in H.
  split_and!.
  - intros e. destruct (get_interviewer_response env _ _ _ _) as [[rt upd]|e'].
    + destruct H as (answer & _ & _ & Hfst). case_decide.
      * destruct (generate_final_feedback env _ _) as [fb|e'].
        -- destruct Hfst as (resp & -> & _). discriminate.
        -- rewrite Hfst. intros [= <-]. unfold http_500. eauto.
      * destruct Hfst as (resp & -> & _). discriminate.
    + rewrite H. cbn [fst]. intros [= <-]. unfold http_500. eauto.
  - intros e He. by rewrite He in H.
  - intros rt upd e Hgen Hupd Hq Hfb. rewrite Hgen in H.
    destruct H as (answer & Hsnd & _ & Hfst).
    cbn [scores question_count] in Hfst, Hsnd.
    destruct (decide (0 ≤ upd)) as [_|?]; [|lia].
    rewrite (decide_True (P := 5 ≤ _)) in Hfst by lia.
    rewrite decide_True in Hfst by (rewrite length_app; simpl; lia).
    rewrite Hfb in Hfst. split; [exact Hfst|].
    eexists. rewrite Hsnd, lookup_insert_eq. split; [reflexivity|]. done.
Qed.

Lemma chat_failure_keeps_turn_witness :
  (∃ detail, fst (viva_chat no_feedback_env four_graded (chat_turn "An answer"))
             = Raise (HTTPException 500 detail))
  ∧ ∃ s', snd (viva_chat no_feedback_env four_graded (chat_turn "An answer")) !! "c1"
          = Some s'
          ∧ question_count s' = 5.
Proof.
  destruct (chat_failure_keeps_turn no_feedback_env four_graded (chat_turn "An answer"))
    as (_ & _ & H).
  destruct (H "Correct. What is a branch?" 80 (OracleError "503 Service Unavailable"))
    as (Hfst & s' & Hs' & _ & Hq);
    [vm_compute; reflexivity|lia|vm_compute; discriminate|vm_compute; reflexivity|].
  split.
  - rewrite Hfst. unfold http_500. eauto.
  - exists s'. split; [exact Hs'|]. rewrite Hq. vm_compute. reflexivity.
Defined.



End ChatProperties.

(** ** Completing a viva: frame, errors, retakes *)

Section CompleteProperties.
Import Complete Spec ProgressSpec ProgressExamples.

Lemma find_index_lt (ms : list LearningModule) (module_id : string) (k i : nat) :
  find_index ms module_id k = Some i →
  (k ≤ i < k + length ms)%nat
  ∧ (∃ m, ms !! (i - k)%nat = Some m ∧ title m = module_id)
  ∧ (∀ j m, (j < i - k)%nat → ms !! j = Some m → title m ≠ module_id).
Proof.
  revert k. induction ms as [|m0 ms IH]; intros k; simpl; [discriminate|].
  case_decide as H0.
  - intros [= <-]. replace (k - k)%nat with 0%nat by lia.
    split; [lia|]. split; [eauto|]. intros j m Hj. lia.
  - intros Hf. destruct (IH _ Hf) as (Hr & (m & Hm & Ht) & Hfirst).
    split; [lia|]. replace (i - k)%nat with (S (i - S k)) by lia.
    split; [eauto|]. intros [|j] m1 Hj; simpl.
    + by intros [= <-].
    + apply Hfirst. lia.
Qed.


Lemma find_index_titles (ms ms' : list LearningModule) (module_id : string) (k : nat) :
  title <$> ms' = title <$> ms → find_index ms' module_id k = find_index ms module_id k.
Proof.
  revert ms' k. induction ms as [|m ms IH]; intros [|m' ms'] k; simpl; try done.
  intros [= Ht Hrest]. rewrite Ht. case_decide; [done|]. by apply IH.
Qed.

(** The module list after the updates, position by position. *)
Lemma apply_result_imap (ms : list LearningModule) (i : nat) (score : Z) :
  (i < length ms)%nat →
  fst (apply_result ms i score) = imap (result_module i score) ms.
Proof.
  intros Hi. apply list_eq. intros j. rewrite list_lookup_imap.
  unfold apply_result, update_at, result_module. rewrite !length_alter.
  destruct (bool_decide (70 ≤ score)) eqn:Hpass.
  - apply bool_decide_eq_true_1 in Hpass.
    destruct (decide (i + 1 < length ms)%nat) as [Hn|Hn]; cbn [fst].
    + destruct (decide (j = i)) as [->|Hji].
      * rewrite list_lookup_alter_ne by lia. rewrite !list_lookup_alter_eq.
        by destruct (ms !! i).
      * destruct (decide (j = S i ∧ 70 ≤ score)) as [[-> _]|Hj].
        -- replace (i + 1)%nat with (S i) by lia.
           rewrite list_lookup_alter_eq. rewrite !list_lookup_alter_ne by lia. done.
        -- rewrite !list_lookup_alter_ne by lia. by destruct (ms !! j).
    + destruct (decide (j = i)) as [->|Hji].
      * rewrite !list_lookup_alter_eq. by destruct (ms !! i).
      * rewrite !list_lookup_alter_ne by lia.
        destruct (decide (j = S i ∧ 70 ≤ score)) as [[-> _]|Hj].
        -- rewrite lookup_ge_None_2 by lia. done.
        -- by destruct (ms !! j).
  - apply bool_decide_eq_false_1 in Hpass. cbn [fst].
    destruct (decide (j = i)) as [->|Hji].
    + rewrite !list_lookup_alter_eq. by destruct (ms !! i).
    + rewrite !list_lookup_alter_ne by lia.
      destruct (decide (j = S i ∧ 70 ≤ score)) as [[_ ?]|_]; [done|].
      by destruct (ms !! j).
Qed.

Lemma apply_result_unlocked (ms : list LearningModule) (i : nat) (score : Z) :
  (i < length ms)%nat →
  snd (apply_result ms i score)
  = if bool_decide (70 ≤ score) then title <$> ms !! S i else None.
Proof.
  intros Hi. unfold apply_result, update_at. rewrite !length_alter.
  destruct (bool_decide (70 ≤ score)); [|done].
  replace (i + 1)%nat with (S i) by lia.
  case_decide as Hn; cbn [snd].
  - rewrite list_lookup_alter_eq. rewrite !list_lookup_alter_ne by lia.
    by destruct (ms !! S i).
  - by rewrite lookup_ge_None_2 by lia.
Qed.

Lemma result_module_content (i : nat) (score : Z) (j : nat) (m : LearningModule) :
  same_content m (result_module i score j m).
Proof. unfold result_module, same_content. repeat case_decide; done. Qed.

Lemma imap_result_titles (ms : list LearningModule) (i : nat) (score : Z) :
  title <$> imap (result_module i score) ms = title <$> ms.
Proof.
  apply list_eq. intros j. rewrite !list_lookup_fmap, list_lookup_imap.
  destruct (ms !! j) as [m|]; [|done]. cbn.
  f_equal. apply (result_module_content i score j m).
Qed.

(** A call that returns, unfolded. *)
Lemma complete_viva_ok (db db' : users) (request : VivaCompleteRequest)
    (resp : VivaCompleteResponse) :
  complete_viva db request = (Ok resp, db') →
  ∃ (u : UserData) (r : Roadmap) (i : nat),
    db !! user_id request = Some u ∧ roadmap u = Some r
    ∧ find_index (modules r) (module_id request) 0 = Some i
    ∧ (i < length (modules r))%nat
    ∧ resp = mkResponse true (bool_decide (70 ≤ final_score request))
               (if bool_decide (70 ≤ final_score request)
                then title <$> modules r !! S i else None)
    ∧ db' = <[user_id request :=
               mkUserData (Some (mkRoadmap (roadmap_user_id r)
                 (imap (result_module i (final_score request)) (modules r))))]> db.
Proof.
  unfold complete_viva.
  destruct (db !! user_id request) as [u|] eqn:Hu; [|discriminate].
  destruct (roadmap u) as [r|] eqn:Hr; [|discriminate].
  destruct (modules r) as [|m0 ms] eqn:Hms; [discriminate|].
  destruct (find_index (m0 :: ms) (module_id request) 0) as [i|] eqn:Hi; [|discriminate].
  destruct (find_index_lt _ _ _ _ Hi) as (Hlt & _).
  pose proof (apply_result_imap (m0 :: ms) i (final_score request) ltac:(lia)) as Hfst.
  pose proof (apply_result_unlocked (m0 :: ms) i (final_score request) ltac:(lia)) as Hsnd.
  destruct (apply_result (m0 :: ms) i (final_score request)) as [ms' unlocked].
  cbn [fst snd] in Hfst, Hsnd. subst ms' unlocked.
  intros [= <- <-]. exists u, r, i. rewrite Hms. split_and!; try done. lia.
Qed.

(** X17: what a successful [complete_viva] changes.  Only the document of
    the named user is rewritten.  The roadmap keeps its user id, the number
    of its modules and, for every module, title, description, week and
    resources.  The module that is graded is the first one carrying the
    requested title; it gets the score, passed or not.  No other score
    changes, and no status changes except that of the graded module and,
    after a pass, of its successor.  The response names the successor's
    title exactly when the viva was passed and a successor exists. *)
Theorem complete_viva_frame (db db' : users) (request : VivaCompleteRequest)
    (resp : VivaCompleteResponse) :
  complete_viva db request = (Ok resp, db') →
  ∃ (r r' : Roadmap) (i : nat),
    (∃ u, db !! user_id request = Some u ∧ roadmap u = Some r)
    ∧ db' !! user_id request = Some (mkUserData (Some r'))
    ∧ (∀ uid, uid ≠ user_id request → db' !! uid = db !! uid)
    ∧ roadmap_user_id r' = roadmap_user_id r
    ∧ length (modules r') = length (modules r)
    ∧ (∀ j m, (j < i)%nat → modules r !! j = Some m → title m ≠ module_id request)
    ∧ (∀ j m, modules r !! j = Some m →
         ∃ m', modules r' !! j = Some m' ∧ same_content m m'
               ∧ (j = i → title m = module_id request
                          ∧ viva_score m' = Some (final_score request)
                          ∧ status m' = if passed resp then "completed" else "pending")
               ∧ (j ≠ i → viva_score m' = viva_score m)
               ∧ (j ≠ i → (j = S i → passed resp = false) → status m' = status m)
               ∧ (j = S i → passed resp = true → status m' = "active"))
    ∧ success resp = true
    ∧ unlocked_module_id resp
      = (if passed resp then title <$> modules r !! S i else None).
Proof.
  intros Hrun.
  destruct (complete_viva_ok _ _ _ _ Hrun) as (u & r & i & Hu & Hr & Hi & Hlt & -> & ->).
  destruct (find_index_lt _ _ _ _ Hi) as (_ & (mi & Hmi & Hti) & Hfirst).
  rewrite Nat.sub_0_r in Hmi, Hfirst.
  exists r, (mkRoadmap (roadmap_user_id r)
               (imap (result_module i (final_score request)) (modules r))), i.
  split_and!; try done.
  - eauto.
  - by rewrite lookup_insert_eq.
  - intros uid Hne. by rewrite lookup_insert_ne.
  - cbn [modules]. by rewrite length_imap.
  - intros j m Hj. cbn [modules passed]. rewrite list_lookup_imap, Hj. cbn.
    eexists. split; [reflexivity|]. split; [apply result_module_content|].
    unfold result_module. split_and!.
    + intros ->. rewrite decide_True by done. cbn.
      rewrite Hmi in Hj. injection Hj as <-. done.
    + intros Hne. rewrite decide_False by done.
      by destruct (decide (j = S i ∧ 70 ≤ final_score request)).
    + intros Hne Hs. rewrite decide_False by done.
      destruct (decide (j = S i ∧ 70 ≤ final_score request)) as [[Hj' Hp]|_]; [|done].
      specialize (Hs Hj'). by rewrite bool_decide_eq_true_2 in Hs.
    + intros -> Hp. rewrite decide_False by lia.
      apply bool_decide_eq_true_1 in Hp.
      by destruct (decide (S i = S i ∧ 70 ≤ final_score request)) as [_|[]].
Qed.

Lemma complete_viva_frame_witness :
  ∃ r', snd (complete_viva learner_db pass_docker) !! "u1" = Some (mkUserData (Some r'))
        ∧ length (modules r') = 4%nat
        ∧ fst (complete_viva learner_db pass_docker)
          = Ok (mkResponse true true (Some "Kubernetes")).
Proof.
  destruct (complete_viva_frame learner_db (snd (complete_viva learner_db pass_docker))
              pass_docker (mkResponse true true (Some "Kubernetes")))
    as (r & r' & i & (u & Hu & Hr) & Hr' & _ & _ & Hlen & _);
    [vm_compute; reflexivity|].
  exists r'. split; [exact Hr'|]. split; [|vm_compute; reflexivity].
  rewrite Hlen.
  assert (Hr0 : r = mkRoadmap "u1" four_modules).
  { assert (Hu0 : u = mkUserData (Some (mkRoadmap "u1" four_modules))).
    { revert Hu. vm_compute. by intros [= <-]. }
    rewrite Hu0 in Hr. by injection Hr as <-. }
  by rewrite Hr0.
Defined.



End CompleteProperties.

Section RetakeProperties.
Import Complete Spec ProgressSpec ProgressExamples.

Lemma result_module_twice (i : nat) (s1 s2 : Z) (j : nat) (m : LearningModule) :
  70 ≤ s2 ∨ s1 < 70 →
  result_module i s2 j (result_module i s1 j m) = result_module i s2 j m.
Proof.
  intros Hs. unfold result_module.
  destruct (decide (j = i)) as [->|Hji]; [done|].
  destruct (decide (j = S i ∧ 70 ≤ s2)) as [[-> H2]|H2].
  - by destruct (decide (S i = S i ∧ 70 ≤ s1)).
  - destruct (decide (j = S i ∧ 70 ≤ s1)) as [[-> H1]|H1]; [|done].
    exfalso. apply H2. split; [done|lia].
Qed.

Lemma imap_result_twice (ms : list LearningModule) (i : nat) (s1 s2 : Z) :
  70 ≤ s2 ∨ s1 < 70 →
  imap (result_module i s2) (imap (result_module i s1) ms) = imap (result_module i s2) ms.
Proof.
  intros Hs. apply list_eq. intros j. rewrite !list_lookup_imap.
  destruct (ms !! j) as [m|]; [|done]. cbn. f_equal. by apply result_module_twice.
Qed.

(** A call on a user with a roadmap in which the module is found. *)
Lemma complete_viva_run (db : users) (request : VivaCompleteRequest) (u : UserData)
    (r : Roadmap) (i : nat) :
  db !! user_id request = Some u → roadmap u = Some r →
  find_index (modules r) (module_id request) 0 = Some i →
  complete_viva db request
  = (Ok (mkResponse true (bool_decide (70 ≤ final_score request))
           (if bool_decide (70 ≤ final_score request)
            then title <$> modules r !! S i else None)),
     <[user_id request :=
         mkUserData (Some (mkRoadmap (roadmap_user_id r)
           (imap (result_module i (final_score request)) (modules r))))]> db).
Proof.
  intros Hu Hr Hi.
  destruct (find_index_lt _ _ _ _ Hi) as (Hlt & _).
  pose proof (apply_result_imap (modules r) i (final_score request) ltac:(lia)) as Hfst.
  pose proof (apply_result_unlocked (modules r) i (final_score request) ltac:(lia)) as Hsnd.
  unfold complete_viva. rewrite Hu, Hr.
  destruct (modules r) as [|m0 ms] eqn:Hms; [simpl in Hlt; lia|].
  rewrite Hi.
  destruct (apply_result (m0 :: ms) i (final_score request)) as [ms' unlocked].
  cbn [fst snd] in Hfst, Hsnd. by subst ms' unlocked.
Qed.

(** X19: a retake of the same module by the same user.  The later
    completion decides alone, as if the earlier one had not happened,
    whenever the later one is a pass or the earlier one was a fail.  The
    remaining case is a pass followed by a failed retake: the module goes
    back to pending with the failing score, while the successor that the
    pass unlocked stays active. *)
Theorem complete_viva_retake (db db1 : users) (first second : VivaCompleteRequest)
    (resp1 : VivaCompleteResponse) :
  user_id second = user_id first → module_id second = module_id first →
  complete_viva db first = (Ok resp1, db1) →
  (70 ≤ final_score second ∨ final_score first < 70 →
   complete_viva db1 second = complete_viva db second)
  ∧ (70 ≤ final_score first → final_score second < 70 →
     ∃ (r2 : Roadmap) (i : nat) (m : LearningModule),
       snd (complete_viva db1 second) !! user_id first = Some (mkUserData (Some r2))
       ∧ modules r2 !! i = Some m ∧ title m = module_id first
       ∧ status m = "pending" ∧ viva_score m = Some (final_score second)
       ∧ ∀ m', modules r2 !! S i = Some m' → status m' = "active").
Proof.
  intros Huid Hmid Hrun.
  destruct (complete_viva_ok _ _ _ _ Hrun) as (u & r & i & Hu & Hr & Hi & Hlt & -> & ->).
  set (ms1 := imap (result_module i (final_score first)) (modules r)).
  assert (Hi1 : find_index ms1 (module_id second) 0 = Some i).
  { rewrite Hmid, <- Hi. apply find_index_titles. apply imap_result_titles. }
  pose proof (complete_viva_run
    (<[user_id first := mkUserData (Some (mkRoadmap (roadmap_user_id r) ms1))]> db)
    second (mkUserData (Some (mkRoadmap (roadmap_user_id r) ms1)))
    (mkRoadmap (roadmap_user_id r) ms1) i) as Hsecond.
  rewrite Huid, lookup_insert_eq in Hsecond.
  specialize (Hsecond eq_refl eq_refl Hi1).
  cbn [modules roadmap_user_id] in Hsecond. rewrite insert_insert_eq in Hsecond.
  split.
  - intros Hs.
    pose proof (complete_viva_run db second u r i) as Hdirect.
    rewrite Huid, Hmid in Hdirect. specialize (Hdirect Hu Hr Hi).
    rewrite Hsecond, Hdirect. subst ms1.
    rewrite imap_result_twice by done.
    f_equal. f_equal. f_equal.
    assert (Ht : title <$> imap (result_module i (final_score first)) (modules r) !! S i
                 = title <$> modules r !! S i).
    { rewrite <- !list_lookup_fmap. by rewrite imap_result_titles. }
    by rewrite Ht.
  - intros H1 H2. rewrite Hsecond. cbn [snd]. rewrite lookup_insert_eq.
    destruct (find_index_lt _ _ _ _ Hi) as (_ & (mi & Hmi & Hti) & _).
    rewrite Nat.sub_0_r in Hmi.
    eexists _, i, _. split; [reflexivity|]. cbn [modules]. subst ms1.
    rewrite !list_lookup_imap, Hmi. cbn. split; [reflexivity|].
    assert (Hat : ∀ s m0, result_module i s i m0
      = mkLearningModule (title m0) (description m0) (week m0)
          (if bool_decide (70 ≤ s) then "completed" else "pending")
          (resources m0) (Some s)).
    { intros s m0. unfold result_module. by rewrite decide_True. }
    rewrite !Hat. cbn. rewrite bool_decide_eq_false_2 by lia. split_and!; try done.
    intros m'. destruct (modules r !! S i) as [mn|]; [|done]. cbn.
    intros [= <-]. unfold result_module.
    rewrite !decide_False by lia.
    destruct (decide (S i = S i ∧ 70 ≤ final_score second)) as [[_ ?]|_]; [lia|].
    by destruct (decide (S i = S i ∧ 70 ≤ final_score first)) as [_|[]].
Qed.

Lemma complete_viva_retake_witness :
  ∃ (r2 : Roadmap),
    snd (complete_viva (snd (complete_viva learner_db pass_docker)) fail_docker) !! "u1"
    = Some (mkUserData (Some r2))
    ∧ (status <$> modules r2) = ["completed"; "pending"; "active"; "pending"].
Proof.
  destruct (complete_viva_retake learner_db (snd (complete_viva learner_db pass_docker))
              pass_docker fail_docker (mkResponse true true (Some "Kubernetes")))
    as [_ H]; [reflexivity|reflexivity|vm_compute; reflexivity|].
  destruct H as (r2 & i & m & Hr2 & _); [vm_compute; discriminate|reflexivity|].
  exists r2. split; [exact Hr2|].
  revert Hr2. vm_compute. by intros [= <-].
Defined.

End RetakeProperties.

(** ** The dashboard figures *)

Section StatsProperties.
Import Complete Spec ProgressSpec ProgressExamples Stats.

Lemma count_status_cons (s : string) (m : LearningModule) (ms : list LearningModule) :
  count_status s (m :: ms)
  = ((if decide (status m = s) then 1 else 0) + count_status s ms)%nat.
Proof. unfold count_status. rewrite filter_cons. by case_decide. Qed.

Lemma count_status_sum (ms : list LearningModule) :
  (count_status "completed" ms + count_status "active" ms + count_status "pending" ms
   ≤ length ms)%nat
  ∧ ((count_status "completed" ms + count_status "active" ms
       + count_status "pending" ms)%nat = length ms
     ↔ Forall (λ m, status m ∈ ["pending"; "active"; "completed"]) ms).
Proof.
  induction ms as [|m ms [IH1 IH2]]; [split; [done|split; [by constructor|done]]|].
  rewrite !count_status_cons. cbn [length].
  assert (Hm : status m ∈ ["pending"; "active"; "completed"]
               ↔ status m = "pending" ∨ status m = "active" ∨ status m = "completed").
  { rewrite !elem_of_cons, elem_of_nil. tauto. }
  rewrite Forall_cons, Hm.
  destruct (decide (status m = "completed")) as [Hc|Hc];
    destruct (decide (status m = "active")) as [Ha|Ha];
    destruct (decide (status m = "pending")) as [Hp|Hp];
    try (exfalso; congruence); (split; [lia|]); split.
  all: try (intros H; split; [tauto|apply IH2; lia]).
  all: try (intros [_ H]; apply IH2 in H; lia).
  - intros H. lia.
  - intros [[|[|]] _]; done.
Qed.

Lemma count_status_pos (s : string) (ms : list LearningModule) (m : LearningModule) :
  m ∈ ms → status m = s → (1 ≤ count_status s ms)%nat.
Proof.
  intros Hin Hs. unfold count_status.
  assert (Hf : m ∈ filter (λ m, status m = s) ms) by (by apply list_elem_of_filter).
  destruct (filter _ ms); [by apply elem_of_nil in Hf|simpl; lia].
Qed.

Lemma first_current_none (ms : list LearningModule) :
  first_current ms = None
  ↔ count_status "active" ms = 0%nat ∧ count_status "pending" ms = 0%nat.
Proof.
  induction ms as [|m ms IH]; [done|].
  rewrite !count_status_cons. cbn [first_current].
  assert (Hm : status m ∈ ["active"; "pending"]
               ↔ status m = "active" ∨ status m = "pending").
  { rewrite !elem_of_cons, elem_of_nil. tauto. }
  destruct (decide (status m ∈ ["active"; "pending"])) as [Hin|Hin].
  - split; [done|]. apply Hm in Hin. intros [H1 H2].
    destruct Hin as [Hin|Hin].
    + rewrite decide_True in H1 by done. lia.
    + rewrite decide_True in H2 by done. lia.
  - rewrite IH. rewrite !decide_False by (intros ?; apply Hin, Hm; tauto). done.
Qed.

Lemma first_current_status (ms : list LearningModule) (cm : CurrentModule) :
  first_current ms = Some cm →
  (cm_status cm = "active" ∨ cm_status cm = "pending")
  ∧ ∃ m, m ∈ ms ∧ title m = cm_title cm ∧ status m = cm_status cm.
Proof.
  induction ms as [|m ms IH]; [done|]. cbn [first_current].
  destruct (decide (status m ∈ ["active"; "pending"])) as [Hin|Hin].
  - intros [= <-]. cbn. split.
    + revert Hin. rewrite !elem_of_cons, elem_of_nil. tauto.
    + exists m. split; [left|done].
  - intros H. destruct (IH H) as (Hs & m' & Hm' & Ht). split; [done|].
    exists m'. split; [by right|done].
Qed.

Lemma sum_cons (x : Z) (xs : list Z) : Chat.sum (x :: xs) = x + Chat.sum xs.
Proof. unfold Chat.sum. simpl. rewrite sum_foldl. unfold Chat.sum. lia. Qed.

Lemma sum_bounds (lo hi : Z) (xs : list Z) :
  Forall (λ x, lo ≤ x ≤ hi) xs →
  lo * Z.of_nat (length xs) ≤ Chat.sum xs ≤ hi * Z.of_nat (length xs).
Proof.
  induction 1 as [|x xs Hx _ IH]; [unfold Chat.sum; simpl; lia|].
  rewrite sum_cons. cbn [length]. lia.
Qed.

Lemma average_bounds (hi : Z) (xs : list Z) :
  0 ≤ hi → Forall (λ x, 0 ≤ x ≤ hi) xs → 0 ≤ average xs ≤ hi.
Proof.
  intros Hhi Hxs. pose proof (sum_bounds 0 hi xs Hxs) as Hsum.
  destruct xs as [|x xs]; [simpl; lia|].
  unfold average, Chat.int_mean.
  set (n := Z.of_nat (length (x :: xs))) in *.
  assert (Hn : 0 < n) by (subst n; simpl length; lia).
  rewrite Z.quot_div_nonneg by lia. split.
  - apply Z.div_pos; lia.
  - apply Z.div_le_upper_bound; lia.
Qed.

Lemma length_omap_le {A B : Type} (f : A → option B) (l : list A) :
  (length (omap f l) ≤ length l)%nat.
Proof.
  induction l as [|a l IH]; [done|].
  change (omap f (a :: l)) with (match f a with Some y => y :: omap f l | None => omap f l end).
  destruct (f a); cbn [length]; lia.
Qed.

(** X20: the figures of [get_user_stats] fit together.  The three status
    counts never add up to more than [total_modules], and to exactly that
    when every module has one of the three statuses.  [current_module] is
    missing exactly when no module is active or pending, and otherwise is a
    module of the roadmap with one of these two statuses.  [level] is the
    number of started blocks of 500 [xp]; and with viva scores between 0
    and 100 the average lies between 0 and 100, the level is at least 1 and
    [xp] is at most 200 per module. *)
Theorem stats_consistent (db : users) (uid : string) (st : UserStats) :
  get_user_stats db uid = Ok st →
  (completed_modules st + active_modules st + pending_modules st ≤ total_modules st)%nat
  ∧ ((completed_modules st + active_modules st + pending_modules st)%nat = total_modules st
     ↔ Forall (λ l, line_status l ∈ ["pending"; "active"; "completed"]) (stats_modules st))
  ∧ length (stats_modules st) = total_modules st
  ∧ length (viva_scores st) = viva_count st
  ∧ (viva_count st ≤ total_modules st)%nat
  ∧ (current_module st = None ↔ active_modules st = 0%nat ∧ pending_modules st = 0%nat)
  ∧ (∀ cm, current_module st = Some cm →
       (cm_status cm = "active" ∨ cm_status cm = "pending")
       ∧ ∃ l, l ∈ stats_modules st ∧ line_title l = cm_title cm
              ∧ line_status l = cm_status cm)
  ∧ 500 * (level st - 1) ≤ xp st < 500 * level st
  ∧ (Forall (λ x, 0 ≤ x ≤ 100) (viva_scores st) →
     0 ≤ avg_viva_score st ≤ 100 ∧ 1 ≤ level st
     ∧ xp st ≤ 200 * Z.of_nat (total_modules st)).
Proof.
  unfold get_user_stats.
  destruct (db !! uid) as [u|]; [|discriminate].
  destruct (roadmap u) as [r|]; [|discriminate].
  intros [= <-]. unfold stats_of. cbn.
  set (ms := modules r).
  destruct (count_status_sum ms) as [Hle Heq].
  pose proof (length_omap_le viva_score ms) as Hn.
  split_and!; try done.
  - rewrite Heq, Forall_fmap. done.
  - by rewrite length_fmap.
  - apply first_current_none.
  - intros cm Hcm. destruct (first_current_status _ _ Hcm) as (Hs & m & Hm & Ht & Hst).
    split; [done|].
    exists (mkModuleLine (title m) (status m) (week m) (viva_score m)).
    split; [|done]. apply list_elem_of_fmap. eauto.
  - pose proof (Z.div_mod (Z.of_nat (count_status "completed" ms) * 100
                           + Chat.sum (omap viva_score ms)) 500 ltac:(lia)).
    pose proof (Z.mod_pos_bound (Z.of_nat (count_status "completed" ms) * 100
                                 + Chat.sum (omap viva_score ms)) 500 ltac:(lia)).
    lia.
  - pose proof (Z.div_mod (Z.of_nat (count_status "completed" ms) * 100
                           + Chat.sum (omap viva_score ms)) 500 ltac:(lia)).
    pose proof (Z.mod_pos_bound (Z.of_nat (count_status "completed" ms) * 100
                                 + Chat.sum (omap viva_score ms)) 500 ltac:(lia)).
    lia.
  - intros Hsc. pose proof (sum_bounds 0 100 _ Hsc) as Hsum.
    split; [by apply average_bounds|].
    split.
    + assert (0 ≤ (Z.of_nat (count_status "completed" ms) * 100
                   + Chat.sum (omap viva_score ms)) `div` 500); [|lia].
      apply Z.div_pos; lia.
    + lia.
Qed.

Lemma stats_consistent_witness :
  ∃ st, get_user_stats learner_db "u1" = Ok st
        ∧ total_modules st = 4%nat ∧ avg_viva_score st = 82 ∧ level st = 1.
Proof.
  eexists. split; [vm_compute; reflexivity|].
  match goal with
  | |- total_modules ?st = _ ∧ _ =>
      pose proof (stats_consistent learner_db "u1" st ltac:(vm_compute; reflexivity)) as H
  end.
  destruct H as (_ & _ & Hlen & _).
  split; [rewrite <- Hlen; reflexivity|]. split; reflexivity.
Defined.

(** X21: the dashboard after a completed viva.  When [complete_viva]
    returns, [get_user_stats] for that user returns as well; it counts as
    many modules as the roadmap had, lists the submitted score among the
    viva scores, counts at least one completed module after a pass, and
    after a fail counts at least one pending module and shows a current
    module. *)
Theorem stats_after_completion (db db' : users) (request : VivaCompleteRequest)
    (resp : VivaCompleteResponse) :
  complete_viva db request = (Ok resp, db') →
  ∃ st st0,
    get_user_stats db (user_id request) = Ok st0
    ∧ get_user_stats db' (user_id request) = Ok st
    ∧ total_modules st = total_modules st0
    ∧ final_score request ∈ viva_scores st
    ∧ (1 ≤ viva_count st)%nat
    ∧ (passed resp = true → (1 ≤ completed_modules st)%nat)
    ∧ (passed resp = false →
       (1 ≤ pending_modules st)%nat ∧ is_Some (current_module st)).
Proof.
  intros Hrun.
  destruct (complete_viva_ok _ _ _ _ Hrun) as (u & r & i & Hu & Hr & Hi & Hlt & -> & ->).
  destruct (find_index_lt _ _ _ _ Hi) as (_ & (mi & Hmi & Hti) & _).
  rewrite Nat.sub_0_r in Hmi.
  unfold get_user_stats. rewrite Hu, Hr, lookup_insert_eq. cbn [roadmap modules].
  eexists _, _. split; [reflexivity|]. split; [reflexivity|].
  set (ms' := imap (result_module i (final_score request)) (modules r)).
  set (mi' := mkLearningModule (title mi) (description mi) (week mi)
                (if bool_decide (70 ≤ final_score request) then "completed" else "pending")
                (resources mi) (Some (final_score request))).
  assert (Hmi' : mi' ∈ ms').
  { apply (list_elem_of_lookup_2 _ i). subst ms'. rewrite list_lookup_imap, Hmi. cbn.
    unfold result_module. by rewrite decide_True. }
  assert (Hscore : final_score request ∈ omap viva_score ms').
  { apply list_elem_of_omap. exists mi'. split; [done|reflexivity]. }
  unfold stats_of. cbn. split_and!.
  - subst ms'. by rewrite length_imap.
  - done.
  - destruct (omap viva_score ms'); [by apply elem_of_nil in Hscore|simpl; lia].
  - intros Hp. apply (count_status_pos _ _ mi'); [done|]. subst mi'. cbn. by rewrite Hp.
  - intros Hp.
    assert (Hpend : (1 ≤ count_status "pending" ms')%nat).
    { apply (count_status_pos _ _ mi'); [done|]. subst mi'. cbn. by rewrite Hp. }
    split; [done|].
    destruct (first_current ms') as [cm|] eqn:Hcm; [eauto|].
    apply first_current_none in Hcm. lia.
Qed.

Lemma stats_after_completion_witness :
  ∃ st, get_user_stats (snd (complete_viva learner_db fail_docker)) "u1" = Ok st
        ∧ 41 ∈ viva_scores st ∧ (1 ≤ pending_modules st)%nat.
Proof.
  destruct (stats_after_completion learner_db (snd (complete_viva learner_db fail_docker))
              fail_docker (mkResponse true false None))
    as (st & st0 & _ & Hst & _ & Hin & _ & _ & Hfail); [vm_compute; reflexivity|].
  exists st. split; [exact Hst|]. split; [exact Hin|]. apply Hfail. reflexivity.
Defined.

End StatsProperties.

(** ** Syncing progress from the browser *)

Section SyncProperties.
Import Complete Spec ProgressSpec ProgressExamples Sync.

(** The score a module flagged as passed ends with. *)
Lemma sync_module_flagged (vs : gmap string bool) (b : LearningModule) (f : option string) :
  vs !! title b = Some true →
  sync_module vs b f
  = (mkLearningModule (title b) (description b) (week b) "completed" (resources b)
       (Some (match viva_score b with
              | Some s => if decide (70 ≤ s) then s else 75
              | None => 75
              end)), 1).
Proof.
  intros Hv. destruct b as [t d w st rs sc]. unfold sync_module.
  cbn [set_status set_viva_score title description week status resources viva_score] in *.
  rewrite Hv. unfold needs_default_score.
  destruct sc as [s|]; [|done].
  destruct (decide (70 ≤ s)) as [Hs|Hs].
  - rewrite (bool_decide_eq_false_2 (s = 0)) by lia.
    rewrite (bool_decide_eq_false_2 (s < 70)) by lia. done.
  - rewrite (bool_decide_eq_true_2 (s < 70)) by lia. by rewrite orb_true_r.
Qed.

Lemma sync_module_other (vs : gmap string bool) (b : LearningModule) (f : option string) :
  vs !! title b ≠ Some true →
  sync_module vs b f = (set_status b (default (status b) f), 0).
Proof.
  intros Hv. unfold sync_module. cbn [set_status title].
  destruct (vs !! title b) as [[]|]; done.
Qed.

Lemma sync_module_content (vs : gmap string bool) (b : LearningModule) (f : option string) :
  same_content b (fst (sync_module vs b f)).
Proof.
  destruct (decide (vs !! title b = Some true)) as [Hv|Hv].
  - by rewrite sync_module_flagged.
  - by rewrite sync_module_other.
Qed.

Lemma sync_module_twice (vs : gmap string bool) (b : LearningModule) (f : option string) :
  sync_module vs (fst (sync_module vs b f)) f = sync_module vs b f.
Proof.
  destruct (decide (vs !! title b = Some true)) as [Hv|Hv].
  - rewrite (sync_module_flagged vs b f Hv). cbn [fst].
    rewrite sync_module_flagged by done. cbn. do 3 f_equal.
    destruct (viva_score b) as [s|]; [|done].
    destruct (decide (70 ≤ s)); [by rewrite decide_True|done].
  - rewrite (sync_module_other vs b f Hv). cbn [fst].
    rewrite sync_module_other by done. by destruct f.
Qed.

Lemma sync_modules_cons (vs : gmap string bool) (b : LearningModule)
    (bs : list LearningModule) (f : option string) (fs : list (option string)) :
  sync_modules vs (b :: bs) (f :: fs)
  = (fst (sync_module vs b f) :: fst (sync_modules vs bs fs),
     snd (sync_module vs b f) + snd (sync_modules vs bs fs)).
Proof.
  cbn [sync_modules]. destruct (sync_module vs b f), (sync_modules vs bs fs). done.
Qed.

Lemma sync_modules_nil_r (vs : gmap string bool) (bs : list LearningModule) :
  sync_modules vs bs [] = (bs, 0).
Proof. by destruct bs. Qed.

Lemma sync_modules_lookup (vs : gmap string bool) (bs : list LearningModule)
    (fs : list (option string)) (j : nat) :
  fst (sync_modules vs bs fs) !! j
  = match fs !! j with
    | Some f => (λ b, fst (sync_module vs b f)) <$> bs !! j
    | None => bs !! j
    end.
Proof.
  revert fs j. induction bs as [|b bs IH]; intros [|f fs] j; try done.
  - cbn [sync_modules fst]. rewrite lookup_nil. by destruct ((f :: fs) !! j).
  - rewrite sync_modules_cons. destruct j as [|j]; [done|]. cbn. apply IH.
Qed.

Lemma sync_modules_length (vs : gmap string bool) (bs : list LearningModule)
    (fs : list (option string)) :
  length (fst (sync_modules vs bs fs)) = length bs.
Proof.
  revert fs. induction bs as [|b bs IH]; intros [|f fs]; try done.
  rewrite sync_modules_cons. cbn. by rewrite IH.
Qed.

Lemma sync_modules_count (vs : gmap string bool) (bs : list LearningModule)
    (fs : list (option string)) :
  snd (sync_modules vs bs fs)
  = Z.of_nat (length (filter (λ b, vs !! title b = Some true) (take (length fs) bs))).
Proof.
  revert fs. induction bs as [|b bs IH]; intros [|f fs]; try done.
  rewrite sync_modules_cons. cbn [snd length take]. rewrite filter_cons, IH.
  destruct (decide (vs !! title b = Some true)) as [Hv|Hv].
  - rewrite sync_module_flagged by done. cbn [snd length]. lia.
  - rewrite sync_module_other by done. cbn [snd]. lia.
Qed.

Lemma sync_modules_twice (vs : gmap string bool) (bs : list LearningModule)
    (fs : list (option string)) :
  sync_modules vs (fst (sync_modules vs bs fs)) fs = sync_modules vs bs fs.
Proof.
  revert fs. induction bs as [|b bs IH]; intros [|f fs]; try done.
  rewrite !sync_modules_cons. cbn [fst snd]. rewrite sync_modules_cons.
  by rewrite sync_module_twice, IH.
Qed.

(** A call that returns, unfolded. *)
Lemma sync_user_progress_ok (db db' : users) (uid : string) (request : SyncRequest)
    (n : Z) :
  sync_user_progress db uid request = (Ok n, db') →
  ∃ (u : UserData) (r : Roadmap) (fs : list (option string)),
    db !! uid = Some u ∧ roadmap u = Some r ∧ frontend_roadmap request = Some fs
    ∧ n = snd (sync_modules (viva_status request) (modules r) fs)
    ∧ db' = <[uid := mkUserData (Some (mkRoadmap (roadmap_user_id r)
               (fst (sync_modules (viva_status request) (modules r) fs))))]> db.
Proof.
  unfold sync_user_progress.
  destruct (db !! uid) as [u|]; [|discriminate].
  destruct (frontend_roadmap request) as [fs|]; [|discriminate].
  destruct (roadmap u) as [r|] eqn:Hr; [|discriminate].
  destruct (sync_modules _ _ _) as [ms n'] eqn:Hsync.
  intros [= <- <-]. exists u, r, fs. by rewrite Hsync.
Qed.

(** X22: what [sync_user_progress] stores.  Only the document of the user
    is rewritten; the roadmap keeps its user id, its length and the title,
    description, week and resources of every module, and the modules beyond
    the list sent by the browser are untouched.  A module whose title is
    flagged in [vivaStatus] ends completed with a score of at least 70: the
    stored score when that was 70 or more, 75 otherwise, a stored failing
    score included.  Any other module takes the status sent by the browser,
    if one was sent, and keeps its score.  The number returned is the number
    of flagged modules within the range of the browser's list. *)
Theorem sync_progress_result (db db' : users) (uid : string) (request : SyncRequest)
    (n : Z) :
  sync_user_progress db uid request = (Ok n, db') →
  ∃ (r r' : Roadmap) (fs : list (option string)),
    (∃ u, db !! uid = Some u ∧ roadmap u = Some r)
    ∧ frontend_roadmap request = Some fs
    ∧ db' !! uid = Some (mkUserData (Some r'))
    ∧ (∀ uid', uid' ≠ uid → db' !! uid' = db !! uid')
    ∧ roadmap_user_id r' = roadmap_user_id r
    ∧ length (modules r') = length (modules r)
    ∧ (∀ j m, modules r !! j = Some m →
         ∃ m', modules r' !! j = Some m' ∧ same_content m m'
               ∧ ((length fs ≤ j)%nat → m' = m)
               ∧ ((j < length fs)%nat → viva_status request !! title m = Some true →
                  status m' = "completed"
                  ∧ viva_score m'
                    = Some (match viva_score m with
                            | Some s => if decide (70 ≤ s) then s else 75
                            | None => 75
                            end))
               ∧ (∀ f, fs !! j = Some f → viva_status request !! title m ≠ Some true →
                  status m' = default (status m) f ∧ viva_score m' = viva_score m))
    ∧ n = Z.of_nat (length (filter (λ m, viva_status request !! title m = Some true)
                              (take (length fs) (modules r))))
    ∧ 0 ≤ n ≤ Z.of_nat (length fs).
Proof.
  intros Hrun.
  destruct (sync_user_progress_ok _ _ _ _ _ Hrun) as (u & r & fs & Hu & Hr & Hfs & -> & ->).
  exists r, (mkRoadmap (roadmap_user_id r)
               (fst (sync_modules (viva_status request) (modules r) fs))), fs.
  split_and!; try done.
  - eauto.
  - by rewrite lookup_insert_eq.
  - intros uid' Hne. by rewrite lookup_insert_ne.
  - cbn [modules]. apply sync_modules_length.
  - intros j m Hj. cbn [modules]. rewrite sync_modules_lookup, Hj.
    destruct (fs !! j) as [f|] eqn:Hf.
    + apply lookup_lt_Some in Hf as Hlt. cbn. eexists. split; [reflexivity|].
      split; [apply sync_module_content|]. split_and!.
      * lia.
      * intros _ Hv. by rewrite sync_module_flagged.
      * intros f' [= <-] Hv. by rewrite sync_module_other.
    + apply lookup_ge_None in Hf. exists m. split_and!; try done. intros; lia.
  - apply sync_modules_count.
  - rewrite sync_modules_count. lia.
  - rewrite sync_modules_count.
    pose proof (length_filter (λ m, viva_status request !! title m = Some true)
                  (take (length fs) (modules r))) as H1.
    rewrite length_take in H1. lia.
Qed.

Lemma sync_progress_result_witness :
  ∃ r', snd (sync_user_progress learner_db "u1" browser_state) !! "u1"
        = Some (mkUserData (Some r'))
        ∧ fst (sync_user_progress learner_db "u1" browser_state) = Ok 1
        ∧ length (modules r') = 4%nat.
Proof.
  destruct (sync_progress_result learner_db
              (snd (sync_user_progress learner_db "u1" browser_state)) "u1" browser_state 1)
    as (r & r' & fs & (u & Hu & Hr) & _ & Hr' & _ & _ & Hlen & _);
    [vm_compute; reflexivity|].
  exists r'. split; [exact Hr'|]. split; [vm_compute; reflexivity|].
  rewrite Hlen.
  assert (Hu0 : u = mkUserData (Some (mkRoadmap "u1" four_modules))).
  { revert Hu. vm_compute. by intros [= <-]. }
  rewrite Hu0 in Hr. by injection Hr as <-.
Defined.

(** X23: errors and repetition of [sync_user_progress].  An unknown user
    is a 404, a request without roadmap a 400, and a stored user who has a
    profile but no roadmap yet a 500, since the handler calls [get] on the
    missing roadmap; none of them changes the database.  A call that
    returns can be repeated: the same request gives the same answer again
    and stores nothing new. *)
Theorem sync_progress_repeat (db : users) (uid : string) (request : SyncRequest) :
  (∀ e, fst (sync_user_progress db uid request) = Raise e →
     snd (sync_user_progress db uid request) = db
     ∧ ∃ detail,
         (e = HTTPException 404 detail ∧ db !! uid = None)
         ∨ (e = HTTPException 400 detail ∧ is_Some (db !! uid)
            ∧ frontend_roadmap request = None)
         ∨ (e = HTTPException 500 detail ∧ is_Some (frontend_roadmap request)
            ∧ ∃ u, db !! uid = Some u ∧ roadmap u = None))
  ∧ (∀ n db', sync_user_progress db uid request = (Ok n, db') →
       sync_user_progress db' uid request = (Ok n, db')).
Proof.
  split.
  - unfold sync_user_progress.
    destruct (db !! uid) as [u|] eqn:Hu.
    2:{ intros e [= <-]. split; [done|]. eauto. }
    destruct (frontend_roadmap request) as [fs|] eqn:Hfs.
    2:{ intros e [= <-]. split; [done|]. eexists. right. left. eauto. }
    destruct (roadmap u) as [r|] eqn:Hr.
    + destruct (sync_modules _ _ _). discriminate.
    + intros e [= <-]. split; [done|]. eexists. right. right. eauto.
  - intros n db' Hrun.
    destruct (sync_user_progress_ok _ _ _ _ _ Hrun)
      as (u & r & fs & Hu & Hr & Hfs & -> & ->).
    unfold sync_user_progress. rewrite lookup_insert_eq, Hfs. cbn [roadmap modules].
    rewrite sync_modules_twice.
    destruct (sync_modules (viva_status request) (modules r) fs) as [ms n] eqn:Hsync.
    cbn [fst snd roadmap_user_id]. unfold update_user_roadmap.
    by rewrite insert_insert_eq.
Qed.

Lemma sync_progress_repeat_witness :
  sync_user_progress (snd (sync_user_progress learner_db "u1" browser_state)) "u1"
    browser_state
  = (Ok 1, snd (sync_user_progress learner_db "u1" browser_state)).
Proof.
  apply (sync_progress_repeat learner_db "u1" browser_state).
  vm_compute. reflexivity.
Defined.

End SyncProperties.

(** ** The user documents *)

Section AccountsProperties.
Import Accounts AccountsSpec AccountsExamples.

Lemma save_user_profile_ok (db : gmap string UserDoc) (uid : string)
    (profile : UserProfile) (roadmap : option Complete.Roadmap) (now : string) :
  (∀ k d, db !! k = Some d → doc_ok k d) →
  ∀ k d, snd (save_user_profile db uid profile roadmap now) !! k = Some d → doc_ok k d.
Proof.
  intros Hdb k d. unfold save_user_profile.
  destruct (db !! uid) as [d0|] eqn:Hd0; cbn [snd].
  - destruct (decide (uid = k)) as [<-|Hne];
      [|rewrite lookup_insert_ne by done; apply Hdb].
    rewrite lookup_insert_eq. intros [= <-].
    destruct (Hdb _ _ Hd0) as [Hk Ho].
    destruct roadmap as [r|]; split; cbn; try done; split; eauto.
  - destruct (decide (uid = k)) as [<-|Hne];
      [|rewrite lookup_insert_ne by done; apply Hdb].
    rewrite lookup_insert_eq. intros [= <-]. split; [done|]. cbn.
    destruct roadmap as [r|]; cbn.
    + split; eauto.
    + split; [done|]. by intros [? ?].
Qed.

Lemma accounts_reachable_ok (db : gmap string UserDoc) :
  accounts_reachable db → ∀ k d, db !! k = Some d → doc_ok k d.
Proof.
  induction 1 as [|env db p _ IH|env db p _ IH|db uid r now _ IH|db uid _ IH]; intros k d.
  - by rewrite lookup_empty.
  - by apply save_user_profile_ok.
  - unfold generate_roadmap. destruct (generate_ai_roadmap env p); cbn [snd]; [|apply IH].
    by apply save_user_profile_ok.
  - unfold update_user_roadmap. destruct (db !! uid) as [d0|] eqn:Hd0; cbn [snd]; [|apply IH].
    destruct (decide (uid = k)) as [<-|Hne];
      [|rewrite lookup_insert_ne by done; apply IH].
    rewrite lookup_insert_eq. intros [= <-]. destruct (IH _ _ Hd0) as [Hk _].
    split; [done|]. cbn. split; eauto.
  - unfold delete_user. destruct (db !! uid); cbn [snd]; [|apply IH].
    destruct (decide (uid = k)) as [<-|Hne].
    + by rewrite lookup_delete_eq.
    + rewrite lookup_delete_ne by done. apply IH.
Qed.

(** X24: the stored user documents stay consistent.  After any sequence of
    [save_profile], [generate_roadmap], [update_user_roadmap] and
    [delete_user], every document is stored under its own uid and is marked
    as onboarded exactly when it holds a roadmap; [check_user_status]
    reports these two facts, and reports an unknown user as not onboarded,
    without profile and roadmap. *)
Theorem onboarding_invariant (db : gmap string UserDoc) (key : string) :
  accounts_reachable db →
  match db !! key with
  | Some user =>
      doc_uid user = key
      ∧ (onboarding_completed user = true ↔ is_Some (roadmap user))
      ∧ check_user_status db key
        = mkUserStatus key (bool_decide (roadmap user ≠ None)) (Some (profile user))
            (roadmap user)
  | None => check_user_status db key = mkUserStatus key false None None
  end.
Proof.
  intros Hreach. unfold check_user_status, get_user.
  destruct (db !! key) as [user|] eqn:Hu; [|done].
  destruct (accounts_reachable_ok db Hreach key user Hu) as [Hk Ho].
  split; [done|]. split; [done|]. rewrite Hk. f_equal.
  destruct (roadmap user) as [r|].
  - rewrite bool_decide_eq_true_2 by done. apply Ho. eauto.
  - rewrite bool_decide_eq_false_2 by (by intros H; apply H).
    destruct (onboarding_completed user); [|done].
    destruct (proj1 Ho eq_refl) as [? ?]. done.
Qed.

Lemma onboarding_invariant_witness :
  status_onboarding_completed (check_user_status onboarded "u1") = true
  ∧ status_onboarding_completed
      (check_user_status (snd (save_profile planner ∅ learner)) "u1") = false.
Proof.
  assert (H1 : accounts_reachable (snd (save_profile planner ∅ learner)))
    by (repeat constructor).
  assert (H2 : accounts_reachable onboarded) by (unfold onboarded; repeat constructor).
  pose proof (onboarding_invariant onboarded "u1" H2) as Ha.
  pose proof (onboarding_invariant (snd (save_profile planner ∅ learner)) "u1" H1) as Hb.
  split.
  - destruct (onboarded !! "u1") as [user|] eqn:Hu; [|by vm_compute in Hu].
    destruct Ha as (_ & _ & ->). cbn.
    revert Hu. vm_compute. by intros [= <-].
  - destruct (snd (save_profile planner ∅ learner) !! "u1") as [user|] eqn:Hu;
      [|by vm_compute in Hu].
    destruct Hb as (_ & _ & ->). cbn.
    revert Hu. vm_compute. by intros [= <-].
Defined.



End AccountsProperties.

(** ** Unwrapping the reply of the language model *)

Section ReplyProperties.
Import PyStr Reply ReplyExamples.
























End ReplyProperties.
